(** * MindMitra: a shallow embedding of the dashboard logic

    The development follows the TypeScript sources:
    - [MentalHealthCard.tsx]: [analyzeMood], [handleJournalSubmit],
      [handleQuickAction];
    - [ExamTrackerCard.tsx]: [getProgressPercentage] and the progress rows
      of the rendered exam list;
    - [AddExamModal.tsx]: [handleSubmit];
    - the [chat-assistant] edge function: the [serve] handler.

    JavaScript strings are modelled as [string], standing for their UTF-8
    encoding; JavaScript numbers that hold marks and percentages as IEEE 754
    binary64 values ([PrimFloat.float]); keyword counts and point balances
    (small integers, exactly representable as numbers) as [Z].  Remote calls
    are events of a free monad, interpreted against a model of the store
    written from the migration. *)

From Stdlib Require Import ZArith Bool List Ascii String Lia.
From Stdlib Require Import Floats.PrimFloat Floats.FloatOps Floats.SpecFloat
  Floats.FloatAxioms.
From Stdlib Require Import Numbers.Cyclic.Int63.Uint63.
From stdpp Require Import base option strings pretty gmap.
Import ListNotations.

Local Open Scope string_scope.
Local Open Scope Z_scope.

(** ** JavaScript built-ins used by the sources *)

Module JS.

Definition is_Some_bool {A} (x : option A) : bool :=
  match x with
  | Some _ => true
  | None => false
  end.

(** [x || d]: [undefined]/[null] are [None]. *)
Definition orElse {A} (x : option A) (falsy : A -> bool) (d : A) : A :=
  match x with
  | Some v => if falsy v then d else v
  | None => d
  end.

(** [String.prototype.toLowerCase] on the UTF-8 encoding: [A]..[Z] become
    [a]..[z] and every other byte is kept.  For the classifier this loses
    nothing: its keywords are ASCII, and the only characters outside ASCII
    whose lowercase holds an ASCII letter are U+212A (to [k]) and U+0130 (to
    [i] followed by U+0307), while no keyword contains [k] or ends in
    [i].  The letters outside ASCII are not lowercased here; what holds of
    the classifier for every lowercasing is stated on [analyzeMoodWith]. *)
Definition lowerChar (c : ascii) : ascii :=
  let n := N_of_ascii c in
  if ((65 <=? n) && (n <=? 90))%N then ascii_of_N (n + 32) else c.

Fixpoint toLowerCase (s : string) : string :=
  match s with
  | EmptyString => EmptyString
  | String c s' => String (lowerChar c) (toLowerCase s')
  end.

(** [String.prototype.includes]: [k] occurs in [s] as a substring. *)
Fixpoint includes (s k : string) : bool :=
  String.prefix k s ||
  match s with
  | EmptyString => false
  | String _ s' => includes s' k
  end.

(** White space and line terminators, as [String.prototype.trim] and
    [parseInt] skip them.  A string stands for its UTF-8 encoding, so the
    characters outside ASCII (U+00A0, U+1680, U+2000..U+200A, U+2028,
    U+2029, U+202F, U+205F, U+3000, U+FEFF) take two or three bytes. *)
Definition isWhiteSpace (c : ascii) : bool :=
  let n := N_of_ascii c in
  ((9 <=? n) && (n <=? 13) || (n =? 32))%N.

Definition isWhiteSpace3 (c1 c2 c3 : ascii) : bool :=
  let n1 := N_of_ascii c1 in
  let n2 := N_of_ascii c2 in
  let n3 := N_of_ascii c3 in
  ((n1 =? 225) && (n2 =? 154) && (n3 =? 128)
   || (n1 =? 226) && (n2 =? 128)
      && ((128 <=? n3) && (n3 <=? 138) || (n3 =? 168) || (n3 =? 169) || (n3 =? 175))
   || (n1 =? 226) && (n2 =? 129) && (n3 =? 159)
   || (n1 =? 227) && (n2 =? 128) && (n3 =? 128)
   || (n1 =? 239) && (n2 =? 187) && (n3 =? 191))%N.

(** The string after one leading white space character, if it has one. *)
Definition skipWhiteSpace (s : string) : option string :=
  match s with
  | String c1 s1 =>
      if isWhiteSpace c1 then Some s1
      else
        match s1 with
        | String c2 s2 =>
            if ((N_of_ascii c1 =? 194) && (N_of_ascii c2 =? 160))%N then Some s2
            else
              match s2 with
              | String c3 s3 => if isWhiteSpace3 c1 c2 c3 then Some s3 else None
              | EmptyString => None
              end
        | EmptyString => None
        end
  | EmptyString => None
  end.

Fixpoint trimStartWithin (fuel : nat) (s : string) : string :=
  match fuel with
  | O => s
  | S fuel' =>
      match skipWhiteSpace s with
      | Some rest => trimStartWithin fuel' rest
      | None => s
      end
  end.

(** Every skip consumes a byte: the length of the string is enough fuel. *)
Definition trimStart (s : string) : string :=
  trimStartWithin (String.length s) s.

(** [!s.trim()]: the trimmed string is empty. *)
Definition isBlank (s : string) : bool :=
  match trimStart s with
  | EmptyString => true
  | String _ _ => false
  end.

(** [!s] for a string. *)
Definition isEmpty (s : string) : bool :=
  match s with
  | EmptyString => true
  | String _ _ => false
  end.

(** *** Numbers: IEEE 754 binary64 *)

Definition number := float.

(** The number nearest to an integer (ties to even), as the conversion of
    a parsed integer literal gives it. *)
Definition numberOfZ (z : Z) : number :=
  SF2Prim (binary_normalize prec emax z 0 false).

(** [a > b] on numbers is [b < a]; it is false when either is [NaN]. *)
Definition gt (a b : number) : bool := PrimFloat.ltb b a.

Definition isNegZero (x : number) : bool :=
  PrimFloat.is_zero x && PrimFloat.get_sign x.

(** [Math.min(a, b)]: [NaN] if either is; [-0] is below [+0]. *)
Definition Math_min (a b : number) : number :=
  if PrimFloat.is_nan a || PrimFloat.is_nan b then PrimFloat.nan
  else if PrimFloat.ltb b a then b
  else if isNegZero b && PrimFloat.is_zero a then b
  else a.

(** [Math.round(x)]: the integer nearest to [x], ties towards +infinity;
    integers, infinities, zeros and [NaN] are returned as they are, and a
    negative [x] that rounds to zero gives [-0]. *)
Definition Math_round (x : number) : number :=
  match Prim2SF x with
  | S754_finite s m e =>
      if 0 <=? e then x
      else
        let n := if s then Z.neg m else Z.pos m in
        let r := (2 * n + 2 ^ (- e)) / 2 ^ (1 - e) in
        if r =? 0 then (if s then PrimFloat.neg_zero else PrimFloat.zero)
        else if r <? 0 then PrimFloat.opp (numberOfZ (- r))
        else numberOfZ r
  | _ => x
  end.

(** *** [parseInt(string)] without a radix *)

Definition digitValue (radix : Z) (c : ascii) : option Z :=
  let n := Z.of_N (N_of_ascii c) in
  let v :=
    if (48 <=? n) && (n <=? 57) then Some (n - 48)
    else if (97 <=? n) && (n <=? 102) then Some (n - 87)
    else if (65 <=? n) && (n <=? 70) then Some (n - 55)
    else None in
  match v with
  | Some d => if d <? radix then Some d else None
  | None => None
  end.

(** The longest prefix of digits, read in [radix]: [None] when it is
    empty. *)
Fixpoint readDigits (radix : Z) (acc : option Z) (s : string) : option Z :=
  match s with
  | EmptyString => acc
  | String c s' =>
      match digitValue radix c with
      | Some d => readDigits radix (Some (radix * default 0 acc + d)) s'
      | None => acc
      end
  end.

Definition stripSign (s : string) : bool * string :=
  match s with
  | String "-" s' => (true, s')
  | String "+" s' => (false, s')
  | _ => (false, s)
  end.

Definition stripHexPrefix (s : string) : Z * string :=
  match s with
  | String "0" (String "x" s') => (16, s')
  | String "0" (String "X" s') => (16, s')
  | _ => (10, s)
  end.

Definition parseInt (s : string) : number :=
  let '(negative, s1) := stripSign (trimStart s) in
  let '(radix, s2) := stripHexPrefix s1 in
  match readDigits radix None s2 with
  | None => PrimFloat.nan
  | Some z =>
      if negative then PrimFloat.opp (numberOfZ z) else numberOfZ z
  end.

End JS.

(** ** The mood classifier ([MentalHealthCard.tsx], [analyzeMood]) *)

Module MoodClassifier.
Import JS.

(** The object literal [moodKeywords]; [Object.entries] lists its entries
    in insertion order. *)
Definition moodKeywords : list (string * list string) :=
  [ ("Happy", ["happy"; "joy"; "excited"; "great"; "awesome"; "wonderful";
               "amazing"; "fantastic"; "good"; "positive"; "cheerful"]);
    ("Calm", ["calm"; "peaceful"; "relaxed"; "serene"; "tranquil"; "quiet";
              "content"; "balanced"; "zen"; "steady"]);
    ("Motivated", ["motivated"; "determined"; "focused"; "energetic";
                   "productive"; "driven"; "ambitious"; "goal"; "achieve";
                   "success"]);
    ("Stressed", ["stressed"; "anxious"; "worried"; "overwhelmed";
                  "pressure"; "deadline"; "exam"; "nervous"; "tense";
                  "frustrated"]);
    ("Lonely", ["lonely"; "alone"; "isolated"; "sad"; "depressed"; "empty";
                "disconnected"; "missing"; "solitary"; "withdrawn"]) ].

Definition moodScoreMap : list (string * Z) :=
  [ ("Calm", 1); ("Motivated", 2); ("Happy", 3); ("Stressed", 4);
    ("Lonely", 5) ].

(** Property access [obj[key]] on an object literal: [None] is
    [undefined]. *)
Fixpoint get {A} (key : string) (obj : list (string * A)) : option A :=
  match obj with
  | [] => None
  | (k, v) :: rest => if String.eqb key k then Some v else get key rest
  end.

(** The inner [keywords.forEach]: one increment per keyword present. *)
Definition keywordScore (lowerText : string) (keywords : list string) : Z :=
  fold_left
    (fun score keyword =>
       if includes lowerText keyword then score + 1 else score)
    keywords 0.

(** The body of the outer [forEach], on the pair
    [(maxScore, detectedMood)]. *)
Definition visit (lowerText : string) (acc : Z * string)
    (entry : string * list string) : Z * string :=
  let '(maxScore, detectedMood) := acc in
  let '(mood, keywords) := entry in
  let score := keywordScore lowerText keywords in
  if maxScore <? score then (score, mood) else (maxScore, detectedMood).

Record MoodResult := { mood : string; score : option Z }.

(** The body of [analyzeMood], with the built-in
    [String.prototype.toLowerCase] it calls as a parameter: what the body
    does with the lowercased text does not depend on how the built-in
    lowercases. *)
Definition analyzeMoodWith (toLowerCase : string -> string) (text : string)
    : MoodResult :=
  let lowerText := toLowerCase text in
  let detectedMood := snd (fold_left (visit lowerText) moodKeywords (0, "Calm")) in
  {| mood := detectedMood; score := get detectedMood moodScoreMap |}.

Definition analyzeMood (text : string) : MoodResult :=
  analyzeMoodWith toLowerCase text.

End MoodClassifier.

Import JS MoodClassifier.


(** ** Exam progress ([ExamTrackerCard.tsx]) *)

Module ExamTracker.
Import JS.

Record Exam := {
  id : string;
  subject : string;
  date : string;
  max_marks : number;
  target_marks : number;
  obtained_marks : option number;
  created_at : string
}.

Definition getProgressPercentage (obtained : option number) (target : number)
    : number :=
  match obtained with
  | None => 0%float
  | Some obtained =>
      Math_min (PrimFloat.mul (PrimFloat.div obtained target) 100%float)
               100%float
  end.

(** The progress block of one exam of the rendered list: the caption, the
    number printed before the [%] sign and the [value] of the bar. *)
Record ProgressRow := {
  caption : string;
  percent : number;
  value : number
}.

Definition renderProgress (exam : Exam) : ProgressRow :=
  match obtained_marks exam with
  | Some _ =>
      {| caption := "Progress vs Target";
         percent := Math_round (getProgressPercentage (obtained_marks exam)
                                                      (target_marks exam));
         value := getProgressPercentage (obtained_marks exam)
                                        (target_marks exam) |}
  | None =>
      {| caption := "Target Progress";
         percent := Math_round (PrimFloat.mul
                      (PrimFloat.div (target_marks exam) (max_marks exam))
                      100%float);
         value := PrimFloat.mul
                    (PrimFloat.div (target_marks exam) (max_marks exam))
                    100%float |}
  end.

End ExamTracker.


(** ** Remote calls and view effects of the handlers

    A handler is a program of the free monad over the calls it awaits: the
    store ([supabase.from(...)]), the edge function
    ([supabase.functions.invoke]), the clock, and the effects on the view
    (state setters, toasts, callbacks of the parent). *)

Module Effects.
Import JS.

(** An error object; the handlers read only its [message]. *)
Record JsError := { message : string }.

Record JournalRow := {
  j_user_id : string;
  j_content : string;
  j_mood_score : option Z;
  j_mood_name : string
}.

Record ExamRow := {
  e_user_id : string;
  e_subject : string;
  e_date : string;
  e_max_marks : number;
  e_target_marks : number
}.

Inductive MessageType := user | assistant.

Record Message := {
  m_id : Z;
  m_type : MessageType;
  m_content : option string;
  m_timestamp : Z
}.

Record ToastOptions := {
  title : string;
  description : string;
  destructive : bool
}.

Inductive ViewEffect :=
| preventDefault
| setIsLoading (b : bool)
| setLoading (b : bool)
| appendMessage (m : Message)
| setCurrentMood (mood : string)
| setJournalText (text : string)
| resetFormData
| onWellnessPointsUpdate
| onExamAdded
| toast (t : ToastOptions)
| console_error (label : string) (error : JsError).

(** The result of [supabase.functions.invoke]. *)
Record FunctionsResponse := {
  fn_data : option string;
  fn_error : option JsError
}.

(** The awaited calls, indexed by what they resolve to.
    [SelectPoints] is [from("profiles").select("wellness_points")
    .eq("user_id", userId).single()]: its [data] is [null] ([None]) or a
    row whose [wellness_points] may be [null].  [UpdatePoints] is
    [from("profiles").update({wellness_points}).eq("user_id", userId)]. *)
Inductive Call : Type -> Type :=
| InsertJournal (row : JournalRow) : Call (option JsError)
| InsertExam (row : ExamRow) : Call (option JsError)
| SelectPoints (userId : string) : Call (option (option Z))
| UpdatePoints (userId : string) (wellness_points : Z) : Call (option JsError)
| InvokeChat (message mood : string) : Call FunctionsResponse
| DateNow : Call Z
| View (e : ViewEffect) : Call unit.

Inductive Prog (A : Type) : Type :=
| Ret (a : A)
| Do {R : Type} (c : Call R) (k : R -> Prog A).
Arguments Ret {A} a.
Arguments Do {A R} c k.

Fixpoint bind {A B} (p : Prog A) (f : A -> Prog B) : Prog B :=
  match p with
  | Ret a => f a
  | Do c k => Do c (fun r => bind (k r) f)
  end.

Definition await {R} (c : Call R) : Prog R := Do c Ret.
Definition view (e : ViewEffect) : Prog unit := await (View e).

(** The body of a [try] block: it completes ([inr]) or throws ([inl]). *)
Definition Try (A : Type) : Type := Prog (JsError + A).

Definition throw {A} (e : JsError) : Try A := Ret (inl e).
Definition done : Try unit := Ret (inr tt).

(** [try { body } catch (error) { handler error }]. *)
Definition tryCatch (body : Try unit) (handler : JsError -> Prog unit)
    : Prog unit :=
  bind body (fun r => match r with inl error => handler error | inr _ => Ret tt end).

End Effects.

Declare Scope prog_scope.
Delimit Scope prog_scope with prog.
Notation "x <- c ;; k" := (Effects.bind c (fun x => k))
  (at level 100, c at next level, right associativity) : prog_scope.
Notation "c ;; k" := (Effects.bind c (fun _ => k))
  (at level 100, right associativity) : prog_scope.

(** ** The points ledger

    The three rewarded actions compute
    [(currentProfile?.wellness_points || 0) + delta] from the row they have
    just read, with [delta] 5, 3 and 2. *)

Module PointsLedger.
Import JS.

Definition newPoints (currentProfile : option (option Z)) (delta : Z) : Z :=
  orElse (mjoin currentProfile) (Z.eqb 0) 0 + delta.

End PointsLedger.

(** ** The journal handlers ([MentalHealthCard.tsx]) *)

Module MentalHealthCard.
Import JS MoodClassifier Effects PointsLedger.
Local Open Scope prog_scope.

Definition handleJournalSubmit (userId journalText : string) : Prog unit :=
  if isBlank journalText then Ret tt
  else
    view (setIsLoading true) ;;
    tryCatch
      (let r := analyzeMood journalText in
       journalError <- await (InsertJournal
                         {| j_user_id := userId;
                            j_content := journalText;
                            j_mood_score := score r;
                            j_mood_name := mood r |}) ;;
       match journalError with
       | Some e => throw e
       | None =>
           currentProfile <- await (SelectPoints userId) ;;
           pointsError <- await (UpdatePoints userId (newPoints currentProfile 5)) ;;
           match pointsError with
           | Some e => throw e
           | None =>
               now <- await DateNow ;;
               stamp <- await DateNow ;;
               view (appendMessage {| m_id := now; m_type := user;
                                      m_content := Some journalText;
                                      m_timestamp := stamp |}) ;;
               response <- await (InvokeChat journalText (mood r)) ;;
               match fn_error response with
               | Some e => throw e
               | None =>
                   match fn_data response with
                   | None =>
                       throw {| message :=
                         "Cannot read properties of null (reading 'response')" |}
                   | Some reply =>
                       now' <- await DateNow ;;
                       stamp' <- await DateNow ;;
                       view (appendMessage {| m_id := now' + 1;
                                              m_type := assistant;
                                              m_content := Some reply;
                                              m_timestamp := stamp' |}) ;;
                       view (setCurrentMood (mood r)) ;;
                       view (setJournalText "") ;;
                       view onWellnessPointsUpdate ;;
                       view (toast {| title := "Journal saved!";
                                      description :=
                                        String.append "Mood detected: "
                                          (String.append (mood r)
                                             ". +5 wellness points earned!");
                                      destructive := false |}) ;;
                       done
                   end
               end
           end
       end)
      (fun error =>
         view (console_error "Error:" error) ;;
         view (toast {| title := "Error";
                        description :=
                          if isEmpty (message error)
                          then "Failed to save journal entry"
                          else message error;
                        destructive := true |})) ;;
    view (setIsLoading false).

Definition actionMessages : list (string * string) :=
  [ ("breathing", "Starting a 5-minute breathing exercise. Breathe in for 4 counts, hold for 4, breathe out for 6. Focus on your breath and let go of any tension.");
    ("meditation", "Beginning guided meditation. Find a comfortable position, close your eyes, and focus on the present moment. You're doing great by taking this time for yourself.");
    ("mindfulness", "Here's a mindfulness prompt: Take a moment to notice 5 things you can see, 4 things you can touch, 3 things you can hear, 2 things you can smell, and 1 thing you can taste. This grounds you in the present moment.") ].

(** The points update of [handleQuickAction] sits in a [try] whose [catch]
    only logs; the awaited calls resolve to [{ data, error }] and do not
    throw, and the [error] of the update is not looked at. *)
Definition handleQuickAction (userId action : string) : Prog unit :=
  now <- await DateNow ;;
  stamp <- await DateNow ;;
  view (appendMessage {| m_id := now; m_type := assistant;
                         m_content := get action actionMessages;
                         m_timestamp := stamp |}) ;;
  currentProfile <- await (SelectPoints userId) ;;
  await (UpdatePoints userId (newPoints currentProfile 3)) ;;
  view onWellnessPointsUpdate ;;
  view (toast {| title := "Great job!";
                 description := "+3 wellness points for practicing self-care!";
                 destructive := false |}).

End MentalHealthCard.

(** ** Adding an exam ([AddExamModal.tsx]) *)

Module AddExamModal.
Import JS Effects PointsLedger.
Local Open Scope prog_scope.

(** The form state.  A picked [Date] is held as its [toISOString()]. *)
Record FormData := {
  subject : string;
  date : option string;
  maxMarks : string;
  targetMarks : string
}.

(** [iso.split('T')[0]]. *)
Fixpoint beforeT (iso : string) : string :=
  match iso with
  | EmptyString => EmptyString
  | String c rest => if Ascii.eqb c "T" then EmptyString else String c (beforeT rest)
  end.

(** The first guard, [!subject || !date || !maxMarks || !targetMarks], is
    split in two so that the picked date is at hand for the insert. *)
Definition handleSubmit (userId : string) (formData : FormData) : Prog unit :=
  view preventDefault ;;
  match date formData with
  | Some iso =>
      if isEmpty (subject formData) || isEmpty (maxMarks formData)
         || isEmpty (targetMarks formData)
      then view (toast {| title := "Error";
                          description := "Please fill in all fields";
                          destructive := true |})
      else
        let maxMarks := parseInt (maxMarks formData) in
        let targetMarks := parseInt (targetMarks formData) in
        if gt targetMarks maxMarks
        then view (toast {| title := "Error";
                            description :=
                              "Target marks cannot be higher than maximum marks";
                            destructive := true |})
        else
          view (setLoading true) ;;
          tryCatch
            (error <- await (InsertExam
                        {| e_user_id := userId;
                           e_subject := subject formData;
                           e_date := beforeT iso;
                           e_max_marks := maxMarks;
                           e_target_marks := targetMarks |}) ;;
             match error with
             | Some e => throw e
             | None =>
                 currentProfile <- await (SelectPoints userId) ;;
                 await (UpdatePoints userId (newPoints currentProfile 2)) ;;
                 view (toast {| title := "Exam added successfully!";
                                description :=
                                  "+2 wellness points for staying organized!";
                                destructive := false |}) ;;
                 view resetFormData ;;
                 view onExamAdded ;;
                 done
             end)
            (fun error =>
               view (console_error "Error adding exam:" error) ;;
               view (toast {| title := "Error";
                              description :=
                                if isEmpty (message error)
                                then "Failed to add exam"
                                else message error;
                              destructive := true |})) ;;
          view (setLoading false)
  | None =>
      view (toast {| title := "Error";
                     description := "Please fill in all fields";
                     destructive := true |})
  end.

End AddExamModal.

(** ** A model of the store and of the other collaborators

    The tables follow the migration: [profiles] has one row per [user_id]
    ([UNIQUE]) with a nullable [wellness_points]; [journal_entries] and
    [exams] carry [CHECK] constraints.  Every remote call consumes one
    [Outcome] of the world, so that any call can fail (network, policy)
    whatever the tables hold. *)

Module Store.
Import JS Effects.

Record Db := {
  profiles : gmap string (option Z);
  journal_entries : list JournalRow;
  exams : list ExamRow
}.

Inductive Outcome := succeeds | fails (e : JsError).

Record World := {
  db : Db;
  outcomes : list Outcome;
  clock : Z;
  assistant : string -> string -> option string
}.

Definition nextOutcome (w : World) : Outcome * World :=
  match outcomes w with
  | [] => (succeeds, w)
  | o :: rest =>
      (o, {| db := db w; outcomes := rest; clock := clock w;
             assistant := assistant w |})
  end.

Definition withDb (w : World) (d : Db) : World :=
  {| db := d; outcomes := outcomes w; clock := clock w;
     assistant := assistant w |}.

(** [CHECK (mood_score >= 1 AND mood_score <= 5)] and
    [CHECK (mood_name IN (...))]; a [NULL] score passes. *)
Definition journalChecks (row : JournalRow) : bool :=
  match j_mood_score row with
  | Some n => (1 <=? n) && (n <=? 5)
  | None => true
  end
  && existsb (String.eqb (j_mood_name row))
       ["Calm"; "Motivated"; "Happy"; "Stressed"; "Lonely"].

(** The range of an [INTEGER] column. *)
Definition int4 (v : Z) : bool := (-2147483648 <=? v) && (v <=? 2147483647).

(** [CHECK (max_marks > 0)] and [CHECK (target_marks > 0)] on [INTEGER NOT
    NULL] columns; [NaN] and the infinities are sent as [null]. *)
Definition examChecks (row : ExamRow) : bool :=
  gt (e_max_marks row) 0%float
  && PrimFloat.leb (e_max_marks row) 2147483647%float
  && gt (e_target_marks row) 0%float
  && PrimFloat.leb (e_target_marks row) 2147483647%float.

Definition violation : JsError :=
  {| message := "new row violates check constraint" |}.

Definition outOfRange : JsError :=
  {| message := "integer out of range" |}.

Definition insertJournal (row : JournalRow) (d : Db) : Db :=
  {| profiles := profiles d;
     journal_entries := journal_entries d ++ [row];
     exams := exams d |}.

Definition insertExam (row : ExamRow) (d : Db) : Db :=
  {| profiles := profiles d;
     journal_entries := journal_entries d;
     exams := exams d ++ [row] |}.

(** [UPDATE profiles SET wellness_points = v WHERE user_id = uid]: no row
    matched is not an error. *)
Definition updatePoints (uid : string) (v : Z) (d : Db) : Db :=
  {| profiles :=
       match profiles d !! uid with
       | Some _ => <[uid := Some v]> (profiles d)
       | None => profiles d
       end;
     journal_entries := journal_entries d;
     exams := exams d |}.

Definition step {R} (c : Call R) (w : World) : R * World :=
  match c in Call R return R * World with
  | InsertJournal row =>
      let '(o, w') := nextOutcome w in
      match o with
      | fails e => (Some e, w')
      | succeeds =>
          if journalChecks row then (None, withDb w' (insertJournal row (db w')))
          else (Some violation, w')
      end
  | InsertExam row =>
      let '(o, w') := nextOutcome w in
      match o with
      | fails e => (Some e, w')
      | succeeds =>
          if examChecks row then (None, withDb w' (insertExam row (db w')))
          else (Some violation, w')
      end
  | SelectPoints uid =>
      let '(o, w') := nextOutcome w in
      match o with
      | fails _ => (None, w')
      | succeeds => (profiles (db w') !! uid, w')
      end
  | UpdatePoints uid v =>
      let '(o, w') := nextOutcome w in
      match o with
      | fails e => (Some e, w')
      | succeeds =>
          if int4 v then (None, withDb w' (updatePoints uid v (db w')))
          else (Some outOfRange, w')
      end
  | InvokeChat message mood =>
      let '(o, w') := nextOutcome w in
      match o with
      | fails e => ({| fn_data := None; fn_error := Some e |}, w')
      | succeeds =>
          ({| fn_data := assistant w' message mood; fn_error := None |}, w')
      end
  | DateNow =>
      (clock w, {| db := db w; outcomes := outcomes w; clock := clock w + 1;
                   assistant := assistant w |})
  | View _ => (tt, w)
  end.

(** A call together with what it resolved to. *)
Inductive Event : Type :=
| Ev (R : Type) (c : Call R) (r : R).
Arguments Ev {R} c r.

Fixpoint run {A} (p : Prog A) (w : World) : A * World * list Event :=
  match p with
  | Ret a => (a, w, [])
  | Do c k =>
      let '(r, w1) := step c w in
      let '(a, w2, evs) := run (k r) w1 in
      (a, w2, Ev c r :: evs)
  end.

Definition finalDb {A} (p : Prog A) (w : World) : Db := db (snd (fst (run p w))).
Definition trace {A} (p : Prog A) (w : World) : list Event := snd (run p w).

(** Calls that leave the browser. *)
Definition isRemote (e : Event) : bool :=
  match e with
  | Ev c _ =>
      match c with
      | DateNow | View _ => false
      | _ => true
      end
  end.

(** Calls that write to a table. *)
Definition isWrite (e : Event) : bool :=
  match e with
  | Ev c _ =>
      match c with
      | InsertJournal _ | InsertExam _ | UpdatePoints _ _ => true
      | _ => false
      end
  end.

Definition isToast (e : Event) : option ToastOptions :=
  match e with
  | Ev c _ =>
      match c with
      | View (toast t) => Some t
      | _ => None
      end
  end.

Definition toasts (evs : list Event) : list ToastOptions :=
  omap isToast evs.

(** Two handlers running at once: [schedule] says which of them makes
    its next call ([true]: the first); when the schedule ends the first
    runs to its end, then the second. *)
Fixpoint interleave (schedule : list bool) (p q : Prog unit) (w : World)
    : World :=
  match schedule with
  | [] => snd (fst (run q (snd (fst (run p w)))))
  | b :: rest =>
      if b then
        match p with
        | Ret _ => interleave rest p q w
        | Do c k => let '(r, w1) := step c w in interleave rest (k r) q w1
        end
      else
        match q with
        | Ret _ => interleave rest p q w
        | Do c k => let '(r, w1) := step c w in interleave rest p (k r) w1
        end
  end.

(** The traffic on [profiles.wellness_points]: what a read returned and
    what a write sent. *)
Inductive LedgerOp :=
| readPoints (userId : string) (data : option (option Z))
| writePoints (userId : string) (wellness_points : Z).

Definition ledgerOp (e : Event) : option LedgerOp :=
  match e with
  | Ev c r =>
      match c in Call R return R -> option LedgerOp with
      | SelectPoints userId => fun data => Some (readPoints userId data)
      | UpdatePoints userId v => fun _ => Some (writePoints userId v)
      | _ => fun _ => None
      end r
  end.

Definition ledger (evs : list Event) : list LedgerOp := omap ledgerOp evs.

(** The balance a read shows: a missing row or a [null] column counts
    as 0. *)
Definition balanceOf (data : option (option Z)) : Z :=
  match data with
  | Some (Some points) => points
  | _ => 0
  end.

(** The error object that the points update or the chat call of a run
    resolved to. *)
Definition failureOf (e : Event) : option JsError :=
  match e with
  | Ev c r =>
      match c in Call R return R -> option JsError with
      | UpdatePoints _ _ => fun error => error
      | InvokeChat _ _ => fun response => fn_error response
      | _ => fun _ => None
      end r
  end.

Definition failures (evs : list Event) : list JsError := omap failureOf evs.

(** An insert that the store accepted. *)
Definition isCommittedInsert (e : Event) : bool :=
  match e with
  | Ev c r =>
      match c in Call R return R -> bool with
      | InsertJournal _ => fun error => negb (is_Some_bool error)
      | InsertExam _ => fun error => negb (is_Some_bool error)
      | _ => fun _ => false
      end r
  end.

End Store.

(** ** The chat responder (the [chat-assistant] edge function)

    The handler passed to [serve].  Identifiers are resolved in the
    lexical scope of the block that mentions them: the bindings of the
    [try] block ([message], [mood], [systemPrompt], ...) are [const]
    declarations of that block, and the [catch] block is a sibling block
    whose scope is that of the enclosing function plus [error]. *)

Module ChatAssistant.
Import JS MoodClassifier Effects.

Inductive Value :=
| undefined
| str (s : string)
| object (name : string).

Definition ofOption (x : option string) : Value :=
  match x with
  | Some s => str s
  | None => undefined
  end.

(** [ToString], as template literals and property keys apply it. *)
Definition toString (v : Value) : string :=
  match v with
  | undefined => "undefined"
  | str s => s
  | object _ => "[object Object]"
  end.

Definition Scope := list (string * Value).

(** Resolving an identifier: a [ReferenceError] when no enclosing scope
    binds it. *)
Definition resolve (x : string) (scope : Scope) : JsError + Value :=
  match get x scope with
  | Some v => inr v
  | None => inl {| message := String.append x " is not defined" |}
  end.

(** The body of the request: [req.json()] rejects ([None]) or gives an
    object whose [message] and [mood] may be missing. *)
Record Payload := { p_message : option string; p_mood : option string }.

Record Request := { method : string; json : option Payload }.

Record Response := {
  body : option string;
  headers : list (string * string)
}.

(** What the handler's promise settles to. *)
Inductive Completion :=
| fulfilled (r : Response)
| rejected (e : JsError).

Record FetchInit := {
  authorization : string;
  model : string;
  system_content : string;
  user_content : Value;
  max_tokens : Z
}.

(** A JSON value, as far as the handler tells values apart: a string,
    [null], or any other value (number, boolean, array, object), given by
    the text [JSON.stringify] writes for it. *)
Inductive Json :=
| jsonString (s : string)
| jsonNull
| jsonOther (text : string).

(** The body of the upstream response: [response.json()] rejects
    ([notJson]); or [data.choices[0].message] cannot be read, which throws
    a [TypeError] ([noMessage]); or it can, and [content] is its [content]
    property, [None] when the property is missing ([undefined]). *)
Inductive UpstreamBody :=
| notJson
| noMessage
| chatMessage (content : option Json).

(** The upstream answer: [fetch] rejects, or a response with its [ok]
    flag, its [status] and its body. *)
Inductive FetchResult :=
| networkError (e : JsError)
| httpResponse (ok : bool) (status : Z) (upstream : UpstreamBody).

Definition corsHeaders : list (string * string) :=
  [ ("Access-Control-Allow-Origin", "*");
    ("Access-Control-Allow-Headers",
     "authorization, x-client-info, apikey, content-type") ].

Definition quote : ascii := "034"%char.

Definition hexDigit (n : N) : ascii :=
  ascii_of_N (if (n <? 10)%N then 48 + n else 87 + n).

(** One character of a string under [JSON.stringify]: the quote and the
    backslash are escaped, the control characters are written [\b], [\f],
    [\n], [\r], [\t] or [\u00xx], every other byte is kept. *)
Definition quoteChar (c : ascii) : string :=
  let n := N_of_ascii c in
  if (n =? 34)%N then String "\" (String quote "")
  else if (n =? 92)%N then "\\"
  else if (n =? 8)%N then "\b"
  else if (n =? 12)%N then "\f"
  else if (n =? 10)%N then "\n"
  else if (n =? 13)%N then "\r"
  else if (n =? 9)%N then "\t"
  else if (n <? 32)%N
       then String.append "\u00"
              (String (hexDigit (n / 16)) (String (hexDigit (n mod 16)) ""))
  else String c "".

Fixpoint quoteChars (s : string) : string :=
  match s with
  | EmptyString => EmptyString
  | String c s' => String.append (quoteChar c) (quoteChars s')
  end.

Definition quoteJSONString (s : string) : string :=
  String quote (String.append (quoteChars s) (String quote "")).

(** [JSON.stringify({ response: content })]: a property whose value is
    [undefined] is left out. *)
Definition stringifyResponse (content : option Json) : string :=
  match content with
  | None => "{}"
  | Some value =>
      String.append "{"
        (String.append (quoteJSONString "response")
           (String.append ":"
              (String.append
                 match value with
                 | jsonString s => quoteJSONString s
                 | jsonNull => "null"
                 | jsonOther text => text
                 end
                 "}")))
  end.

(** [new Response(JSON.stringify({ response: content }), { headers })]. *)
Definition respond (content : option Json) : Response :=
  {| body := Some (stringifyResponse content);
     headers := corsHeaders ++ [("Content-Type", "application/json")] |}.

Definition jsonResponse (response : string) : Response :=
  respond (Some (jsonString response)).

Definition systemPrompt (mood : Value) : string :=
  String.append
"You are MindMitra, a compassionate student mental health assistant. 

User's detected mood: "
  (String.append (toString mood)
"

Your role:
- Analyze the user's journal entry or message
- Provide 2-3 actionable, positive tips based on their mood
- Be supportive and encouraging
- Focus on student-specific challenges
- DO NOT provide medical advice
- Keep responses concise (2-3 sentences max)
- Use a warm, friendly tone

For different moods:
- Calm: Encourage maintaining this state, suggest productivity tips
- Motivated: Channel this energy into study goals, provide focus techniques  
- Happy: Celebrate with them, suggest sharing positivity with others
- Stressed: Offer immediate stress relief techniques, remind them they can handle this
- Lonely: Provide connection suggestions, remind them they're not alone

Always end with encouragement and remind them that seeking help is brave.").

Definition fallbackResponses : list (string * string) :=
  [ ("Calm", "That's wonderful that you're feeling calm! This is a great state for focused studying. Try using this peaceful energy to tackle challenging topics. Remember, maintaining balance is key to long-term success.");
    ("Motivated", "I love seeing your motivation! Channel this energy into setting specific study goals for today. Break big tasks into smaller wins. You've got this - your determination will take you far!");
    ("Happy", "Your happiness is contagious! 😊 This positive energy is perfect for learning new things. Consider sharing this joy with classmates or use it to tackle subjects you usually avoid. Keep spreading those good vibes!");
    ("Stressed", "I hear you, and stress before exams is completely normal. Try the 4-7-8 breathing technique: breathe in for 4, hold for 7, out for 8. Take one task at a time. You're stronger than you think!");
    ("Lonely", "Feeling lonely can be tough, especially during study periods. Remember, many students feel this way. Consider joining study groups, calling a friend, or visiting common areas. You're not alone in this journey!") ].

Definition defaultFallback : string :=
  "Thank you for sharing with me. Remember that it's okay to feel however you're feeling right now. Take things one step at a time, and don't hesitate to reach out for support when you need it. You're doing great! 💙".

(** [fallbackResponses[mood] || defaultFallback], on the own properties
    of the literal. *)
Definition fallbackMessage (mood : Value) : string :=
  orElse (get (toString mood) fallbackResponses) isEmpty defaultFallback.

(** The bindings of the module and of the handler function. *)
Definition handlerScope (openAIApiKey : option string) : Scope :=
  [ ("req", object "Request");
    ("openAIApiKey", ofOption openAIApiKey);
    ("corsHeaders", object "corsHeaders");
    ("serve", object "serve") ].

(** The [try] block; [inl] is the thrown error. *)
Definition tryBlock (scope : Scope) (openAIApiKey : option string)
    (fetch : FetchInit -> FetchResult) (req : Request) : JsError + Response :=
  match json req with
  | None => inl {| message := "Unexpected end of JSON input" |}
  | Some payload =>
      let scope :=
        ("message", ofOption (p_message payload))
          :: ("mood", ofOption (p_mood payload)) :: scope in
      match openAIApiKey with
      | None => inl {| message := "OpenAI API key not configured" |}
      | Some key =>
          if isEmpty key
          then inl {| message := "OpenAI API key not configured" |}
          else
            match resolve "mood" scope, resolve "message" scope with
            | inl e, _ | _, inl e => inl e
            | inr mood, inr message' =>
                match fetch {| authorization := String.append "Bearer " key;
                               model := "gpt-4o-mini";
                               system_content := systemPrompt mood;
                               user_content := message';
                               max_tokens := 200 |} with
                | networkError e => inl e
                | httpResponse _ _ notJson =>
                    inl {| message := "Unexpected token in JSON" |}
                | httpResponse false status _ =>
                    inl {| message := String.append "OpenAI API error: "
                                        (pretty status) |}
                | httpResponse true _ noMessage =>
                    inl {| message :=
                      "Cannot read properties of undefined (reading '0')" |}
                | httpResponse true _ (chatMessage aiResponse) =>
                    inr (respond aiResponse)
                end
            end
      end
  end.

(** The [catch] block. *)
Definition catchBlock (scope : Scope) (error : JsError) : Completion :=
  let scope := ("error", object "Error") :: scope in
  let scope := ("fallbackResponses", object "fallbackResponses") :: scope in
  match resolve "mood" scope with
  | inl referenceError => rejected referenceError
  | inr mood => fulfilled (jsonResponse (fallbackMessage mood))
  end.

Definition handler (openAIApiKey : option string)
    (fetch : FetchInit -> FetchResult) (req : Request) : Completion :=
  let scope := handlerScope openAIApiKey in
  if String.eqb (method req) "OPTIONS"
  then fulfilled {| body := None; headers := corsHeaders |}
  else
    match tryBlock scope openAIApiKey fetch req with
    | inr response => fulfilled response
    | inl error => catchBlock scope error
    end.

End ChatAssistant.



(** ** Reference definitions and scenarios used by the properties *)

Module Scenarios.
Import JS ExamTracker Effects Store.

(** The keyword-match count of a mood: how many keywords of its set occur
    in the lowercased text. *)
Definition matchCount (lowerText : string) (keywords : list string) : Z :=
  Z.of_nat (List.length (filter (fun k => includes lowerText k = true) keywords)).

(** The progress of the specification: the target as a share of the
    maximum while no marks are entered, then the marks as a share of the
    target, capped at 100. *)
Definition specProgress (exam : Exam) : number :=
  match obtained_marks exam with
  | None =>
      PrimFloat.mul (PrimFloat.div (target_marks exam) (max_marks exam)) 100%float
  | Some obtainedMarks =>
      Math_min
        (PrimFloat.mul (PrimFloat.div obtainedMarks (target_marks exam)) 100%float)
        100%float
  end.

(** A lowercasing that, besides [A]..[Z], maps the capital letters of
    Latin-1 (U+00C0..U+00DE but U+00D7, in UTF-8 the byte 195 followed by
    128..158 but 151) as JavaScript does, 32 code points up. *)
Fixpoint lowerLatin1 (s : string) : string :=
  match s with
  | EmptyString => EmptyString
  | String c1 s1 =>
      match s1 with
      | String c2 s2 =>
          if ((N_of_ascii c1 =? 195) && (128 <=? N_of_ascii c2)
              && (N_of_ascii c2 <=? 158) && negb (N_of_ascii c2 =? 151))%N
          then String c1 (String (ascii_of_N (N_of_ascii c2 + 32)) (lowerLatin1 s2))
          else String (lowerChar c1) (lowerLatin1 s1)
      | EmptyString => String (lowerChar c1) EmptyString
      end
  end.

(** The answer of the [n]-th remote call of a run: a world answers the
    calls beyond its listed outcomes. *)
Definition outcomeAt (n : nat) (w : World) : Outcome :=
  List.nth n (outcomes w) succeeds.

Definition succeeded (o : Outcome) : bool :=
  match o with
  | succeeds => true
  | fails _ => false
  end.

(** What the read of the balance of [userId] returns when it is the
    [n]-th remote call: the row of the user, or [null] when the call fails
    or there is no row. *)
Definition readAnswer (userId : string) (n : nat) (w : World)
    : option (option Z) :=
  if succeeded (outcomeAt n w) then profiles (db w) !! userId else None.

(** One read of the balance followed by one write of the balance read
    plus [delta]. *)
Definition readThenWrite (userId : string) (data : option (option Z))
    (delta : Z) : list LedgerOp :=
  [readPoints userId data; writePoints userId (balanceOf data + delta)].

(** A journal submission is rewarded when the text is not blank and the
    store accepts the insert, its first remote call. *)
Definition journalRewarded (journalText : string) (w : World) : bool :=
  negb (isBlank journalText) && succeeded (outcomeAt 0 w).

(** An added exam is rewarded when every field is filled, the target does
    not exceed the maximum, the marks pass the checks of [exams] and the
    store accepts the insert, its first remote call. *)
Definition examRewarded (userId : string) (formData : AddExamModal.FormData)
    (w : World) : bool :=
  match AddExamModal.date formData with
  | Some iso =>
      negb (isEmpty (AddExamModal.subject formData)
            || isEmpty (AddExamModal.maxMarks formData)
            || isEmpty (AddExamModal.targetMarks formData))
      && negb (gt (parseInt (AddExamModal.targetMarks formData))
                  (parseInt (AddExamModal.maxMarks formData)))
      && examChecks
           {| e_user_id := userId;
              e_subject := AddExamModal.subject formData;
              e_date := AddExamModal.beforeT iso;
              e_max_marks := parseInt (AddExamModal.maxMarks formData);
              e_target_marks := parseInt (AddExamModal.targetMarks formData) |}
      && succeeded (outcomeAt 0 w)
  | None => false
  end.

(** A user with 10 points who submits a journal entry while an exercise is
    started: both handlers read 10 before either writes. *)
Definition racingWorld : World :=
  {| db := {| profiles := {[ "u1" := Some 10 ]};
              journal_entries := [];
              exams := [] |};
     outcomes := [];
     clock := 0;
     assistant := fun _ _ => Some "Take a short walk." |}.

Definition racingSchedule : list bool :=
  [true; true; true; false; false; false; false; false].

(** A filled form whose target is above its maximum. *)
Definition overTargetForm : AddExamModal.FormData :=
  {| AddExamModal.subject := "Physics";
     AddExamModal.date := Some "2025-10-01T00:00:00.000Z";
     AddExamModal.maxMarks := "100";
     AddExamModal.targetMarks := "120" |}.

(** The insert and the read succeed, the points update is refused. *)
Definition refusedUpdateWorld : World :=
  {| db := {| profiles := {[ "u1" := Some 10 ]};
              journal_entries := [];
              exams := [] |};
     outcomes := [succeeds; succeeds; fails {| message := "permission denied" |}];
     clock := 0;
     assistant := fun _ _ => Some "Take a short walk." |}.

(** A journal entry sent to the responder when no API key is set. *)
Definition stressedRequest : ChatAssistant.Request :=
  {| ChatAssistant.method := "POST";
     ChatAssistant.json :=
       Some {| ChatAssistant.p_message := Some "exam deadline, so stressed";
               ChatAssistant.p_mood := Some "Stressed" |} |}.

End Scenarios.

(** ** The mood ring ([MoodRing.tsx]) *)

Module MoodRing.
Import JS MoodClassifier.

Definition MOOD_COLORS : list (string * string) :=
  [ ("Calm", "#0077FF"); ("Motivated", "#00C851"); ("Happy", "#FFDD00");
    ("Stressed", "#FF3D00"); ("Lonely", "#9B59B6") ].

(** The property names an object literal inherits from
    [Object.prototype]: [MOOD_COLORS[mood]] finds a function or an object
    under them, which is truthy and is not a colour. *)
Definition inheritedKeys : list string :=
  [ "constructor"; "__proto__"; "hasOwnProperty"; "isPrototypeOf";
    "propertyIsEnumerable"; "toLocaleString"; "toString"; "valueOf";
    "__defineGetter__"; "__defineSetter__"; "__lookupGetter__";
    "__lookupSetter__" ].

Inductive Background :=
| css (color : string)
| notAColor (key : string).

(** [MOOD_COLORS[mood] || "#6B7280"]. *)
Definition backgroundColor (mood : string) : Background :=
  match get mood MOOD_COLORS with
  | Some color => if isEmpty color then css "#6B7280" else css color
  | None =>
      if existsb (String.eqb mood) inheritedKeys then notAColor mood
      else css "#6B7280"
  end.

Definition emoji (mood : string) : string :=
  if String.eqb mood "Happy" then "😊"
  else if String.eqb mood "Calm" then "😌"
  else if String.eqb mood "Motivated" then "💪"
  else if String.eqb mood "Stressed" then "😰"
  else if String.eqb mood "Lonely" then "😔"
  else "😐".

End MoodRing.

(** ** The counters of the exam card ([ExamTrackerCard.tsx]) *)

Module ExamList.
Import JS ExamTracker.

(** [exams.filter(exam => exam.obtained_marks !== null)]. *)
Definition completedExams (exams : list Exam) : list Exam :=
  List.filter (fun exam => is_Some_bool (obtained_marks exam)) exams.

End ExamList.

(** ** The latest mood ([MentalHealthCard.tsx], [fetchLatestMood])

    One query, then effects on the view; written by state passing over the
    world of the store.  [created_at] defaults to [now()], so the rows of
    [journal_entries], kept in insertion order, are in [created_at] order,
    and [order("created_at", { ascending: false }).limit(1)] gives the last
    row of the user. *)

Module LatestMood.
Import JS Effects Store.

Definition selectLatestMood (userId : string) (rows : list JournalRow)
    : list string :=
  take 1 (reverse (map j_mood_name
                       (List.filter (fun row => String.eqb (j_user_id row) userId)
                                    rows))).

Definition fetchLatestMood (userId : string) (w : World)
    : list ViewEffect * World :=
  let '(o, w') := nextOutcome w in
  match o with
  | fails error => ([console_error "Error fetching mood:" error], w')
  | succeeds =>
      match selectLatestMood userId (journal_entries (db w')) with
      | mood_name :: _ =>
          ([setCurrentMood (if isEmpty mood_name then "Calm" else mood_name)], w')
      | [] => ([], w')
      end
  end.

End LatestMood.

(** ** The dashboard ([Dashboard], [fetchWellnessPoints])

    The balance shown in the header, and the lazy creation of the profile
    row when the select finds none (code [PGRST116]).  [name] is [NOT NULL]
    in [profiles]; the other columns of the row are not kept by the model
    of the store. *)

Module Dashboard.
Import JS Effects Store.

Record User := {
  u_id : string;
  u_email : option string;
  u_name : option string
}.

Inductive DashboardEffect :=
| setWellnessPoints (points : Z)
| effect (e : ViewEffect).

Record PostgrestError := { code : string; error : JsError }.

Definition noRows : PostgrestError :=
  {| code := "PGRST116";
     error := {| message := "JSON object requested, multiple (or no) rows returned" |} |}.

(** [from("profiles").select("wellness_points").eq("user_id", id).single()]:
    a failing call answers with an error of another code. *)
Definition selectSingle (userId : string) (w : World)
    : (PostgrestError + option Z) * World :=
  let '(o, w') := nextOutcome w in
  match o with
  | fails e => (inl {| code := ""; error := e |}, w')
  | succeeds =>
      match profiles (db w') !! userId with
      | Some row => (inr row, w')
      | None => (inl noRows, w')
      end
  end.

(** [user.user_metadata?.name || user.email]. *)
Definition profileName (user : User) : option string :=
  match u_name user with
  | Some name => if isEmpty name then u_email user else Some name
  | None => u_email user
  end.

Definition createProfile (userId : string) (d : Db) : Db :=
  {| profiles := <[userId := Some 0]> (profiles d);
     journal_entries := journal_entries d;
     exams := exams d |}.

(** The insert of the profile row with [wellness_points: 0]. *)
Definition insertProfile (user : User) (w : World) : option JsError * World :=
  let '(o, w') := nextOutcome w in
  match o with
  | fails e => (Some e, w')
  | succeeds =>
      match profileName user, profiles (db w') !! u_id user with
      | Some _, None => (None, withDb w' (createProfile (u_id user) (db w')))
      | _, _ => (Some violation, w')
      end
  end.

Definition fetchWellnessPoints (user : User) (w : World)
    : list DashboardEffect * World :=
  let '(selected, w1) := selectSingle (u_id user) w in
  match selected with
  | inr row =>
      ([setWellnessPoints (orElse row (Z.eqb 0) 0); effect (setLoading false)], w1)
  | inl err =>
      let logged := effect (console_error "Error fetching wellness points:" (error err)) in
      if String.eqb (code err) "PGRST116" then
        let '(createError, w2) := insertProfile user w1 in
        match createError with
        | None => ([logged; setWellnessPoints 0; effect (setLoading false)], w2)
        | Some e =>
            ([logged;
              effect (console_error "Error creating profile:" e);
              effect (toast {| title := "Error";
                               description := "Failed to initialize user profile";
                               destructive := true |});
              effect (setLoading false)], w2)
        end
      else ([logged; effect (setLoading false)], w1)
  end.

End Dashboard.

(** ** Further scenarios *)

Module MoreScenarios.
Import JS Effects Store.

(** A string of decimal digits. *)
Fixpoint allDigits (s : string) : bool :=
  match s with
  | EmptyString => true
  | String c s' =>
      (48 <=? N_of_ascii c)%N && (N_of_ascii c <=? 57)%N && allDigits s'
  end.

(** A world with one user holding 40 points and no fault to come. *)
Definition quietWorld : World :=
  {| db := {| profiles := {[ "u1" := Some 40 ]};
              journal_entries := [];
              exams := [] |};
     outcomes := [];
     clock := 1000;
     assistant := fun _ _ => Some "One step at a time." |}.

(** The first remote call is refused. *)
Definition refusedFirstWorld : World :=
  {| db := db quietWorld;
     outcomes := [fails {| message := "network down" |}];
     clock := 1000;
     assistant := assistant quietWorld |}.

(** The read is answered, the next call is refused. *)
Definition refusedSecondWorld : World :=
  {| db := db quietWorld;
     outcomes := [succeeds; fails {| message := "permission denied" |}];
     clock := 1000;
     assistant := assistant quietWorld |}.

(** A store without any profile row. *)
Definition emptyWorld : World :=
  {| db := {| profiles := ∅; journal_entries := []; exams := [] |};
     outcomes := [];
     clock := 0;
     assistant := fun _ _ => None |}.

(** The effects on the view among the events of a run. *)
Definition viewOf (e : Event) : option ViewEffect :=
  match e with
  | Ev c _ =>
      match c with
      | View v => Some v
      | _ => None
      end
  end.

Definition viewEffects (evs : list Event) : list ViewEffect := omap viewOf evs.

(** Between two states of the store, nothing of [profiles] differs but the
    balance of [userId]: the other rows are the same, and no row appeared
    or disappeared. *)
Definition onlyBalanceOf (userId : string) (d d' : Db) : Prop :=
  forall u,
    (u <> userId -> profiles d' !! u = profiles d !! u)
    /\ (is_Some (profiles d' !! u) <-> is_Some (profiles d !! u)).

(** The row that [handleJournalSubmit] inserts. *)
Definition journalRow (userId journalText : string) : JournalRow :=
  {| j_user_id := userId;
     j_content := journalText;
     j_mood_score := MoodClassifier.score (MoodClassifier.analyzeMood journalText);
     j_mood_name := MoodClassifier.mood (MoodClassifier.analyzeMood journalText) |}.

(** The row that [handleSubmit] inserts. *)
Definition examRow (userId iso : string) (formData : AddExamModal.FormData)
    : ExamRow :=
  {| e_user_id := userId;
     e_subject := AddExamModal.subject formData;
     e_date := AddExamModal.beforeT iso;
     e_max_marks := parseInt (AddExamModal.maxMarks formData);
     e_target_marks := parseInt (AddExamModal.targetMarks formData) |}.

Definition errorToast (e : JsError) (fallback : string) : ToastOptions :=
  {| title := "Error";
     description := if isEmpty (message e) then fallback else message e;
     destructive := true |}.

Definition validForm : AddExamModal.FormData :=
  {| AddExamModal.subject := "Physics";
     AddExamModal.date := Some "2025-10-01T00:00:00.000Z";
     AddExamModal.maxMarks := "100";
     AddExamModal.targetMarks := "80" |}.

(** Every field is filled, with a maximum that is not positive. *)
Definition zeroMaxForm : AddExamModal.FormData :=
  {| AddExamModal.subject := "Physics";
     AddExamModal.date := Some "2025-10-01T00:00:00.000Z";
     AddExamModal.maxMarks := "0";
     AddExamModal.targetMarks := "-5" |}.

Definition noDateForm : AddExamModal.FormData :=
  {| AddExamModal.subject := "Physics";
     AddExamModal.date := None;
     AddExamModal.maxMarks := "100";
     AddExamModal.targetMarks := "80" |}.

(** The page is loaded again after the journal entry of
    [refusedUpdateWorld] was saved. *)
Definition reloadedWorld : World :=
  {| db := finalDb (MentalHealthCard.handleJournalSubmit "u1" "I feel lonely")
                   Scenarios.refusedUpdateWorld;
     outcomes := [];
     clock := 2000;
     assistant := fun _ _ => None |}.

Definition knownUser : Dashboard.User :=
  {| Dashboard.u_id := "u1";
     Dashboard.u_email := Some "u1@example.org";
     Dashboard.u_name := Some "Asha" |}.

Definition newUser : Dashboard.User :=
  {| Dashboard.u_id := "u9";
     Dashboard.u_email := Some "u9@example.org";
     Dashboard.u_name := None |}.

End MoreScenarios.

(** * Properties *)

Import JS MoodClassifier.

(** ** The mood classifier *)

Section KeywordScore.
Variable lowerText : string.

Lemma keywordScore_acc (keywords : list string) (a : Z) :
  fold_left (fun score keyword =>
               if includes lowerText keyword then score + 1 else score)
            keywords a
  = a + keywordScore lowerText keywords.
Proof.
  unfold keywordScore. revert a.
  induction keywords as [|k kws IH]; intros a; simpl.
  - lia.
  - rewrite IH. rewrite (IH (if includes lowerText k then 0 + 1 else 0)).
    destruct (includes lowerText k); lia.
Qed.

Lemma keywordScore_cons (k : string) (kws : list string) :
  keywordScore lowerText (k :: kws)
  = (if includes lowerText k then 1 else 0) + keywordScore lowerText kws.
Proof.
  unfold keywordScore at 1. simpl. rewrite keywordScore_acc.
  destruct (includes lowerText k); lia.
Qed.

Lemma keywordScore_nonneg (kws : list string) : 0 <= keywordScore lowerText kws.
Proof.
  induction kws as [|k kws IH].
  - unfold keywordScore; simpl; lia.
  - rewrite keywordScore_cons. destruct (includes lowerText k); lia.
Qed.

Lemma keywordScore_zero (kws : list string) :
  keywordScore lowerText kws = 0
  <-> List.Forall (fun k => includes lowerText k = false) kws.
Proof.
  induction kws as [|k kws IH].
  - split; [constructor | reflexivity].
  - rewrite keywordScore_cons. pose proof (keywordScore_nonneg kws) as Hn.
    split.
    + intros H. destruct (includes lowerText k) eqn:E; [lia|].
      constructor; [exact E | apply IH; lia].
    + intros H. inversion H as [|? ? Hk Hrest]; subst.
      rewrite Hk. apply IH in Hrest. lia.
Qed.

Lemma keywordScore_pos (kws : list string) :
  0 < keywordScore lowerText kws
  <-> exists k, In k kws /\ includes lowerText k = true.
Proof.
  induction kws as [|k kws IH].
  - split; [unfold keywordScore; simpl; lia | intros (k & [] & _)].
  - rewrite keywordScore_cons. pose proof (keywordScore_nonneg kws) as Hn.
    split.
    + intros H. destruct (includes lowerText k) eqn:E.
      * exists k. split; [left; reflexivity | exact E].
      * destruct IH as [IH _]. destruct IH as (k' & Hin & Hk'); [lia|].
        exists k'. split; [right; exact Hin | exact Hk'].
    + intros (k' & [-> | Hin] & Hk').
      * rewrite Hk'. lia.
      * assert (0 < keywordScore lowerText kws) by (apply IH; eauto).
        destruct (includes lowerText k); lia.
Qed.

(** The outer loop keeps the first entry whose score exceeds all the
    scores before it and is not exceeded after it. *)
Lemma visit_fold_first_max (entries : list (string * list string)) :
  forall (maxScore : Z) (detectedMood : string),
    let r := fold_left (visit lowerText) entries (maxScore, detectedMood) in
    (r = (maxScore, detectedMood)
     /\ List.Forall (fun e => keywordScore lowerText (snd e) <= maxScore) entries)
    \/ (exists before kws after,
           entries = (before ++ (snd r, kws) :: after)%list
           /\ fst r = keywordScore lowerText kws
           /\ maxScore < fst r
           /\ List.Forall (fun e => keywordScore lowerText (snd e) < fst r) before
           /\ List.Forall (fun e => keywordScore lowerText (snd e) <= fst r) after).
Proof.
  induction entries as [|[m kws] rest IH]; intros maxScore detectedMood; simpl.
  - left. split; [reflexivity | constructor].
  - destruct (Z.ltb_spec maxScore (keywordScore lowerText kws)) as [Hlt | Hge].
    + destruct (IH (keywordScore lowerText kws) m) as [[Heq Hall] | Hex].
      * right. exists [], kws, rest. rewrite Heq. simpl.
        repeat split; try assumption; constructor.
      * destruct Hex as (before & kws' & after & Hsplit & Hfst & Hgt & Hb & Ha).
        right. exists ((m, kws) :: before), kws', after.
        repeat split; try assumption.
        -- simpl. f_equal. exact Hsplit.
        -- lia.
        -- constructor; [simpl; lia | exact Hb].
    + destruct (IH maxScore detectedMood) as [[Heq Hall] | Hex].
      * left. split; [exact Heq | constructor; [simpl; lia | exact Hall]].
      * destruct Hex as (before & kws' & after & Hsplit & Hfst & Hgt & Hb & Ha).
        right. exists ((m, kws) :: before), kws', after.
        repeat split; try assumption.
        -- simpl. f_equal. exact Hsplit.
        -- constructor; [simpl; lia | exact Hb].
Qed.

End KeywordScore.

Lemma analyzeMood_unfold (text : string) :
  analyzeMood text =
  {| mood := snd (fold_left (visit (toLowerCase text)) moodKeywords (0, "Calm"));
     score := get (snd (fold_left (visit (toLowerCase text)) moodKeywords (0, "Calm")))
                  moodScoreMap |}.
Proof. reflexivity. Qed.

(** Every declared mood has a score in [moodScoreMap]. *)
Lemma moodScoreMap_declared (m : string) (kws : list string) :
  In (m, kws) moodKeywords ->
  In (m, get m moodScoreMap)
     [("Calm", Some 1); ("Motivated", Some 2); ("Happy", Some 3);
      ("Stressed", Some 4); ("Lonely", Some 5)].
Proof.
  unfold moodKeywords. simpl.
  intros [H | [H | [H | [H | [H | []]]]]]; inversion H; subst; simpl; tauto.
Qed.

(** The score of the inner loop is the number of keywords present. *)
Lemma keywordScore_matchCount (lowerText : string) (keywords : list string) :
  keywordScore lowerText keywords = Scenarios.matchCount lowerText keywords.
Proof.
  unfold Scenarios.matchCount.
  induction keywords as [|k kws IH].
  - reflexivity.
  - rewrite keywordScore_cons, IH. rewrite filter_cons.
    destruct (decide (includes lowerText k = true)) as [E | E].
    + rewrite E. cbn [List.length]. lia.
    + apply not_true_is_false in E. rewrite E. lia.
Qed.

(** C1: the classifier returns the first mood, in the iteration order
    Happy, Calm, Motivated, Stressed, Lonely, whose keyword-match count is
    maximal: the counts of the moods before it are strictly smaller and the
    counts of the moods after it are not greater; its score is the one of
    the fixed mapping.  When all five counts are zero it returns Calm with
    score 1. *)
Theorem analyzeMood_first_maximal (text : string) :
  let count := Scenarios.matchCount (toLowerCase text) in
  map fst moodKeywords = ["Happy"; "Calm"; "Motivated"; "Stressed"; "Lonely"]
  /\ ((List.Forall (fun e => count (snd e) = 0) moodKeywords
       /\ analyzeMood text = {| mood := "Calm"; score := Some 1 |})
      \/ (exists before kws after,
             moodKeywords = (before ++ (mood (analyzeMood text), kws) :: after)%list
             /\ 0 < count kws
             /\ List.Forall (fun e => count (snd e) < count kws) before
             /\ List.Forall (fun e => count (snd e) <= count kws) after
             /\ In (mood (analyzeMood text), score (analyzeMood text))
                   [("Calm", Some 1); ("Motivated", Some 2); ("Happy", Some 3);
                    ("Stressed", Some 4); ("Lonely", Some 5)])).
Proof.
  intros count. split; [reflexivity|].
  rewrite analyzeMood_unfold. cbn [mood score].
  destruct (visit_fold_first_max (toLowerCase text) moodKeywords 0 "Calm")
    as [[Heq Hall] | (before & kws & after & Hsplit & Hfst & Hgt & Hb & Ha)].
  - left. rewrite Heq. split; [|reflexivity].
    eapply List.Forall_impl; [|exact Hall].
    intros e He. simpl in He. unfold count.
    rewrite <- keywordScore_matchCount.
    pose proof (keywordScore_nonneg (toLowerCase text) (snd e)). lia.
  - right. exists before, kws, after. unfold count.
    rewrite <- keywordScore_matchCount, <- Hfst.
    repeat split; try assumption.
    + eapply List.Forall_impl; [|exact Hb].
      intros e He. simpl in He. rewrite <- keywordScore_matchCount. exact He.
    + eapply List.Forall_impl; [|exact Ha].
      intros e He. simpl in He. rewrite <- keywordScore_matchCount. exact He.
    + apply moodScoreMap_declared with (kws := kws).
      rewrite Hsplit at 2. apply in_or_app. right. left. reflexivity.
Qed.

(** C2: when the lowercased text contains at least one keyword of the mood
    [m] and every keyword it contains belongs to the set of [m], the
    classifier returns [m] with its score under the mapping Calm=1,
    Motivated=2, Happy=3, Stressed=4, Lonely=5. *)
Theorem analyzeMood_single_mood (text m : string) (kws : list string) (s : Z) :
  In (m, kws) moodKeywords ->
  In (m, s) [("Calm", 1); ("Motivated", 2); ("Happy", 3); ("Stressed", 4);
             ("Lonely", 5)] ->
  (exists k, In k kws /\ includes (toLowerCase text) k = true) ->
  (forall m' kws' k, In (m', kws') moodKeywords -> In k kws' ->
                     includes (toLowerCase text) k = true -> m' = m) ->
  analyzeMood text = {| mood := m; score := Some s |}.
Proof.
  intros Hm Hs Hsome Honly.
  assert (Hmood : snd (fold_left (visit (toLowerCase text)) moodKeywords (0, "Calm")) = m).
  { destruct (visit_fold_first_max (toLowerCase text) moodKeywords 0 "Calm")
      as [[_ Hall] | (before & kws0 & after & Hsplit & Hfst & Hgt & _)].
    - apply keywordScore_pos in Hsome.
      rewrite List.Forall_forall in Hall. specialize (Hall _ Hm). simpl in Hall. lia.
    - rewrite Hfst in Hgt. apply keywordScore_pos in Hgt.
      destruct Hgt as (k & Hk & Hinc).
      apply (Honly _ kws0 k); [|exact Hk|exact Hinc].
      rewrite Hsplit at 2. apply in_or_app. right. left. reflexivity. }
  rewrite analyzeMood_unfold, Hmood. f_equal.
  simpl in Hs.
  destruct Hs as [H | [H | [H | [H | [H | []]]]]]; inversion H; subst; reflexivity.
Qed.

Lemma analyzeMood_single_mood_witness :
  analyzeMood "So EXCITED, what a wonderful day" = {| mood := "Happy"; score := Some 3 |}.
Proof.
  apply (analyzeMood_single_mood _ "Happy"
           ["happy"; "joy"; "excited"; "great"; "awesome"; "wonderful";
            "amazing"; "fantastic"; "good"; "positive"; "cheerful"]).
  - simpl. tauto.
  - simpl. tauto.
  - exists "excited". split; [simpl; tauto | reflexivity].
  - intros m' kws' k Hin Hk Hinc. simpl in Hin.
    destruct Hin as [H | [H | [H | [H | [H | []]]]]]; inversion H; subst;
      try reflexivity; simpl in Hk;
      repeat (destruct Hk as [<- | Hk]; [vm_compute in Hinc; discriminate|]);
      destruct Hk.
Defined.

(** C3, as the spec states it, fails: the set of Happy has 11 keywords. *)
Lemma moodKeywords_not_all_ten :
  ~ (forall m kws, In (m, kws) moodKeywords -> List.length kws = 10%nat).
Proof.
  intros H.
  specialize (H "Happy" ["happy"; "joy"; "excited"; "great"; "awesome"; "wonderful";
                         "amazing"; "fantastic"; "good"; "positive"; "cheerful"]).
  simpl in H. assert (11 = 10)%nat by (apply H; left; reflexivity). discriminate.
Qed.

(** C3, amended: the classifier keeps a fixed set of lowercase keywords for
    each of the five moods, 11 for Happy and 10 for each of Calm, Motivated,
    Stressed and Lonely; no keyword occurs twice, within a set or across
    sets. *)
Theorem moodKeywords_sizes :
  map (fun e => (fst e, List.length (snd e))) moodKeywords
  = [("Happy", 11%nat); ("Calm", 10%nat); ("Motivated", 10%nat);
     ("Stressed", 10%nat); ("Lonely", 10%nat)]
  /\ List.Forall (fun e => List.Forall (fun k => toLowerCase k = k) (snd e)) moodKeywords
  /\ List.NoDup (concat (map snd moodKeywords)).
Proof.
  split; [reflexivity|]. split.
  - repeat constructor.
  - apply NoDup_ListNoDup. apply (bool_decide_unpack _). vm_compute. reflexivity.
Qed.

(** C10: the classifier is case-insensitive: two texts with the same
    lowercasing get the same result.  This holds whatever
    [String.prototype.toLowerCase] does to the characters of the texts, the
    letters outside ASCII included: the body of [analyzeMood] reads its
    argument through the lowercasing only. *)
Theorem analyzeMood_case_insensitive (toLowerCase : string -> string)
    (t t' : string) :
  toLowerCase t = toLowerCase t' ->
  analyzeMoodWith toLowerCase t = analyzeMoodWith toLowerCase t'.
Proof.
  intros H. unfold analyzeMoodWith. rewrite H. reflexivity.
Qed.

Lemma analyzeMood_case_insensitive_witness :
  analyzeMoodWith Scenarios.lowerLatin1 "É happy"
  = analyzeMoodWith Scenarios.lowerLatin1 "é happy"
  /\ analyzeMood "I feel LONELY and Sad" = analyzeMood "i feel lonely AND sad".
Proof.
  split.
  - apply (analyzeMood_case_insensitive Scenarios.lowerLatin1). reflexivity.
  - apply (analyzeMood_case_insensitive JS.toLowerCase). reflexivity.
Defined.

(** A text made of all the keywords of one mood, separated by spaces, is
    given that mood: no keyword occurs inside the keywords of another
    mood. *)
Example analyzeMood_own_keywords :
  map (fun e => mood (analyzeMood (String.concat " " (snd e)))) moodKeywords
  = map fst moodKeywords.
Proof. vm_compute. reflexivity. Qed.

(** ** Exam progress *)

Import ExamTracker Scenarios.


(** C4: for every exam record the progress bar shows
    [targetMarks / maxMarks * 100] when [obtainedMarks] is null and
    [min(obtainedMarks / targetMarks * 100, 100)] when it is present, and the
    printed percentage is that number rounded; with no marks, target 80 and
    maximum 100 it shows 80%, and with marks 95 and target 80 it shows
    100%. *)
Theorem renderProgress_spec :
  (forall exam : Exam,
      value (renderProgress exam) = specProgress exam
      /\ percent (renderProgress exam) = Math_round (specProgress exam))
  /\ (forall id subject date created_at,
         renderProgress {| id := id; subject := subject; date := date;
                           max_marks := 100%float; target_marks := 80%float;
                           obtained_marks := None; created_at := created_at |}
         = {| caption := "Target Progress"; percent := 80%float;
              value := 80%float |})
  /\ (forall id subject date max_marks created_at,
         renderProgress {| id := id; subject := subject; date := date;
                           max_marks := max_marks; target_marks := 80%float;
                           obtained_marks := Some 95%float;
                           created_at := created_at |}
         = {| caption := "Progress vs Target"; percent := 100%float;
              value := 100%float |}).
Proof.
  split; [|split].
  - intros exam. unfold renderProgress, specProgress, getProgressPercentage.
    destruct (obtained_marks exam); split; reflexivity.
  - intros. vm_compute. reflexivity.
  - intros. vm_compute. reflexivity.
Qed.

(** C9: whatever the target, [getProgressPercentage] returns 0 when the
    obtained marks are null; the percentage shown for such an exam is
    computed by the rendering code from the target and the maximum. *)
Theorem getProgressPercentage_null :
  (forall target : number, getProgressPercentage None target = 0%float)
  /\ (forall id subject date max_marks target_marks created_at,
         value (renderProgress
                  {| id := id; subject := subject; date := date;
                     max_marks := max_marks; target_marks := target_marks;
                     obtained_marks := None; created_at := created_at |})
         = PrimFloat.mul (PrimFloat.div target_marks max_marks) 100%float).
Proof.
  split; intros; reflexivity.
Qed.

(** The helper's 0 is not what an exam without marks shows. *)
Example null_branch_bypasses_helper :
  value (renderProgress {| id := "e1"; subject := "Physics"; date := "2025-10-01";
                           max_marks := 100%float; target_marks := 80%float;
                           obtained_marks := None; created_at := "" |})
  <> getProgressPercentage None 80%float.
Proof. vm_compute. intros H. discriminate H. Qed.

(** ** The handlers against the store *)

Import Effects PointsLedger Store Scenarios.

(** Unfolding one run of a handler, leaving the tables and the classifier
    folded. *)
Ltac run_handler :=
  cbv beta iota zeta delta [run bind await view tryCatch throw done step nextOutcome withDb
       db outcomes clock assistant fst snd trace finalDb
       fn_error fn_data].

Ltac split_outcomes os :=
  let o := fresh "o" in
  destruct os as [|o os]; [|destruct o].

(** C5: when the parsed target marks exceed the parsed maximum marks, the
    handler only shows an error notification and returns: its run issues no
    call to the store, neither the insert nor the points write, and leaves
    the world as it was. *)
Theorem handleSubmit_rejects_target_above_max
    (userId : string) (formData : AddExamModal.FormData) (w : World) :
  gt (parseInt (AddExamModal.targetMarks formData))
     (parseInt (AddExamModal.maxMarks formData)) = true ->
  exists t,
    run (AddExamModal.handleSubmit userId formData) w
    = (tt, w, [Ev (View preventDefault) tt; Ev (View (toast t)) tt])
    /\ title t = "Error" /\ destructive t = true
    /\ In (description t)
          ["Please fill in all fields";
           "Target marks cannot be higher than maximum marks"]
    /\ filter isRemote (trace (AddExamModal.handleSubmit userId formData) w) = [].
Proof.
  intros Hgt. unfold AddExamModal.handleSubmit.
  destruct (AddExamModal.date formData) as [iso|].
  - destruct (isEmpty (AddExamModal.subject formData)
              || isEmpty (AddExamModal.maxMarks formData)
              || isEmpty (AddExamModal.targetMarks formData)).
    + eexists. run_handler. repeat split. left. reflexivity.
    + rewrite Hgt. eexists. run_handler. repeat split. right. left. reflexivity.
  - eexists. run_handler. repeat split. left. reflexivity.
Qed.

Lemma newPoints_balance (data : option (option Z)) (delta : Z) :
  newPoints data delta = balanceOf data + delta.
Proof.
  unfold newPoints, balanceOf, orElse.
  destruct data as [[[|points|points]|]|]; reflexivity.
Qed.

(** The classifier only produces rows that pass the checks of
    [journal_entries]. *)
Lemma analyzeMood_valid (text : string) :
  In (mood (analyzeMood text), score (analyzeMood text))
     [("Calm", Some 1); ("Motivated", Some 2); ("Happy", Some 3);
      ("Stressed", Some 4); ("Lonely", Some 5)].
Proof.
  rewrite analyzeMood_unfold. cbn [mood score].
  destruct (visit_fold_first_max (toLowerCase text) moodKeywords 0 "Calm")
    as [[Heq _] | (before & kws & after & Hsplit & _)].
  - rewrite Heq. left. reflexivity.
  - apply moodScoreMap_declared with (kws := kws).
    rewrite Hsplit at 2. apply in_or_app. right. left. reflexivity.
Qed.

Lemma journalChecks_analyzeMood (userId text : string) :
  journalChecks {| j_user_id := userId; j_content := text;
                   j_mood_score := score (analyzeMood text);
                   j_mood_name := mood (analyzeMood text) |} = true.
Proof.
  pose proof (analyzeMood_valid text) as H.
  destruct (analyzeMood text) as [m sc]. simpl in H.
  destruct H as [H | [H | [H | [H | [H | []]]]]]; inversion H; subst; reflexivity.
Qed.

(** Case analysis on the outcomes and answers a run consumes. *)
Ltac run_cases :=
  repeat (run_handler;
          match goal with
          | |- context [journalChecks _] => rewrite journalChecks_analyzeMood
          | |- context [match ?os with [] => _ | _ :: _ => _ end] =>
              is_var os; split_outcomes os
          | |- context [if examChecks ?row then _ else _] =>
              destruct (examChecks row)
          | |- context [if int4 ?v then _ else _] =>
              destruct (int4 v)
          | |- context [match ?a ?m ?d with Some _ => _ | None => _ end] =>
              destruct (a m d)
          end).

Lemma handleQuickAction_ledger (userId action : string) (w : World) :
  exists data,
    ledger (trace (MentalHealthCard.handleQuickAction userId action) w)
    = [readPoints userId data; writePoints userId (balanceOf data + 3)].
Proof.
  destruct w as [d os c a]. unfold MentalHealthCard.handleQuickAction.
  run_cases; eexists; cbn [ledger omap list_omap ledgerOp];
    rewrite newPoints_balance; reflexivity.
Qed.

Ltac read_ledger :=
  cbv beta iota zeta delta
    [ledger omap list_omap ledgerOp existsb isCommittedInsert is_Some_bool
     negb orb];
  rewrite ?newPoints_balance.

Lemma handleJournalSubmit_ledger (userId journalText : string) (w : World) :
  exists data,
    ledger (trace (MentalHealthCard.handleJournalSubmit userId journalText) w)
    = if existsb isCommittedInsert
           (trace (MentalHealthCard.handleJournalSubmit userId journalText) w)
      then [readPoints userId data; writePoints userId (balanceOf data + 5)]
      else [].
Proof.
  destruct w as [d os c a]. unfold MentalHealthCard.handleJournalSubmit.
  destruct (isBlank journalText); run_cases;
    first [ exists None; read_ledger; reflexivity
          | eexists; read_ledger; reflexivity ].
Qed.

Lemma handleSubmit_ledger (userId : string) (formData : AddExamModal.FormData)
    (w : World) :
  exists data,
    ledger (trace (AddExamModal.handleSubmit userId formData) w)
    = if existsb isCommittedInsert
           (trace (AddExamModal.handleSubmit userId formData) w)
      then [readPoints userId data; writePoints userId (balanceOf data + 2)]
      else [].
Proof.
  destruct w as [d os c a]. unfold AddExamModal.handleSubmit.
  destruct (AddExamModal.date formData) as [iso|];
    [destruct (isEmpty (AddExamModal.subject formData)
               || isEmpty (AddExamModal.maxMarks formData)
               || isEmpty (AddExamModal.targetMarks formData));
     [|destruct (gt (parseInt (AddExamModal.targetMarks formData))
                    (parseInt (AddExamModal.maxMarks formData)))]|];
    run_cases;
    first [ exists None; read_ledger; reflexivity
          | eexists; read_ledger; reflexivity ].
Qed.


Lemma lost_update :
  profiles (db (interleave racingSchedule
                  (MentalHealthCard.handleJournalSubmit "u1" "exam deadline, so stressed")
                  (MentalHealthCard.handleQuickAction "u1" "breathing")
                  racingWorld)) !! "u1"
  = Some (Some 15).
Proof. vm_compute. reflexivity. Qed.

Ltac read_answers :=
  cbv beta iota zeta delta
    [journalRewarded examRewarded readAnswer readThenWrite outcomeAt succeeded
     List.nth outcomes db negb andb];
  read_ledger.

(** When a submission is rewarded, and what it then reads and writes. *)
Lemma handleJournalSubmit_ledger_exact (userId journalText : string) (w : World) :
  ledger (trace (MentalHealthCard.handleJournalSubmit userId journalText) w)
  = if journalRewarded journalText w
    then readThenWrite userId (readAnswer userId 1 w) 5
    else [].
Proof.
  destruct w as [d os c a]. unfold MentalHealthCard.handleJournalSubmit.
  unfold journalRewarded.
  destruct (isBlank journalText); [reflexivity|].
  run_cases; read_answers; reflexivity.
Qed.

Lemma handleQuickAction_ledger_exact (userId action : string) (w : World) :
  ledger (trace (MentalHealthCard.handleQuickAction userId action) w)
  = readThenWrite userId (readAnswer userId 0 w) 3.
Proof.
  destruct w as [d os c a]. unfold MentalHealthCard.handleQuickAction.
  run_cases; read_answers; reflexivity.
Qed.

Lemma handleSubmit_ledger_exact (userId : string)
    (formData : AddExamModal.FormData) (w : World) :
  ledger (trace (AddExamModal.handleSubmit userId formData) w)
  = if examRewarded userId formData w
    then readThenWrite userId (readAnswer userId 1 w) 2
    else [].
Proof.
  destruct w as [d os c a].
  unfold AddExamModal.handleSubmit, examRewarded.
  destruct (AddExamModal.date formData) as [iso|]; [|reflexivity].
  destruct (isEmpty (AddExamModal.subject formData)
            || isEmpty (AddExamModal.maxMarks formData)
            || isEmpty (AddExamModal.targetMarks formData)); [reflexivity|].
  destruct (gt (parseInt (AddExamModal.targetMarks formData))
               (parseInt (AddExamModal.maxMarks formData))); [reflexivity|].
  cbn [negb andb].
  destruct (examChecks _) eqn:Hchecks;
    repeat (run_handler;
            match goal with
            | |- context [examChecks _] => rewrite Hchecks
            | |- context [match ?os with [] => _ | _ :: _ => _ end] =>
                is_var os; split_outcomes os
            | |- context [if int4 ?v then _ else _] => destruct (int4 v)
            end);
    read_answers; reflexivity.
Qed.

(** C7: every rewarded action reads [wellness_points] and writes back the
    value read plus a fixed amount: a journal submission whose text is not
    blank and whose insert the store accepts reads the balance and writes
    it plus 5, every exercise reads it and writes it plus 3, and an added
    exam, for a filled form that passes the guard and the checks of the
    table and whose insert the store accepts, reads it and writes it plus
    2; a submission that is not rewarded neither reads nor writes the
    balance.  The write carries the new total computed by the client, not
    an increment, so that of two actions that read the same balance one
    amount is lost. *)
Theorem points_read_then_write (userId : string) (w : World) :
  (forall journalText,
      ledger (trace (MentalHealthCard.handleJournalSubmit userId journalText) w)
      = if journalRewarded journalText w
        then readThenWrite userId (readAnswer userId 1 w) 5
        else [])
  /\ (forall action,
         ledger (trace (MentalHealthCard.handleQuickAction userId action) w)
         = readThenWrite userId (readAnswer userId 0 w) 3)
  /\ (forall formData,
         ledger (trace (AddExamModal.handleSubmit userId formData) w)
         = if examRewarded userId formData w
           then readThenWrite userId (readAnswer userId 1 w) 2
           else [])
  /\ (forall journalText, exists data,
         ledger (trace (MentalHealthCard.handleJournalSubmit userId journalText) w)
         = if existsb isCommittedInsert
                (trace (MentalHealthCard.handleJournalSubmit userId journalText) w)
           then [readPoints userId data; writePoints userId (balanceOf data + 5)]
           else [])
  /\ (forall action, exists data,
         ledger (trace (MentalHealthCard.handleQuickAction userId action) w)
         = [readPoints userId data; writePoints userId (balanceOf data + 3)])
  /\ (forall formData, exists data,
         ledger (trace (AddExamModal.handleSubmit userId formData) w)
         = if existsb isCommittedInsert
                (trace (AddExamModal.handleSubmit userId formData) w)
           then [readPoints userId data; writePoints userId (balanceOf data + 2)]
           else [])
  /\ journalRewarded "exam deadline, so stressed" racingWorld = true
  /\ examRewarded "u1"
       {| AddExamModal.subject := "Physics";
          AddExamModal.date := Some "2025-10-01T00:00:00.000Z";
          AddExamModal.maxMarks := "100";
          AddExamModal.targetMarks := "80" |} racingWorld = true
  /\ profiles (db (interleave []
                     (MentalHealthCard.handleJournalSubmit "u1" "exam deadline, so stressed")
                     (MentalHealthCard.handleQuickAction "u1" "breathing")
                     racingWorld)) !! "u1" = Some (Some 18)
  /\ profiles (db (interleave racingSchedule
                     (MentalHealthCard.handleJournalSubmit "u1" "exam deadline, so stressed")
                     (MentalHealthCard.handleQuickAction "u1" "breathing")
                     racingWorld)) !! "u1" = Some (Some 15).
Proof.
  repeat apply conj.
  - intros journalText. apply handleJournalSubmit_ledger_exact.
  - intros action. apply handleQuickAction_ledger_exact.
  - intros formData. apply handleSubmit_ledger_exact.
  - intros journalText. apply handleJournalSubmit_ledger.
  - intros action. apply handleQuickAction_ledger.
  - intros formData. apply handleSubmit_ledger.
  - vm_compute. reflexivity.
  - vm_compute. reflexivity.
  - vm_compute. reflexivity.
  - exact lost_update.
Qed.

(** C8: once the insert of the journal entry has succeeded, the entry
    stays in [journal_entries] whatever happens to the later steps: the
    only writes of the run are that insert and the points update, nothing
    deletes the entry, and when the points update or the chat call resolves
    to an error the run only shows the error notification. *)
Theorem journal_entry_survives
    (userId journalText : string) (w : World) (rest : list Outcome) :
  isBlank journalText = false ->
  outcomes w = succeeds :: rest ->
  let row := {| j_user_id := userId; j_content := journalText;
                j_mood_score := score (analyzeMood journalText);
                j_mood_name := mood (analyzeMood journalText) |} in
  let tr := trace (MentalHealthCard.handleJournalSubmit userId journalText) w in
  journal_entries (finalDb (MentalHealthCard.handleJournalSubmit userId journalText) w)
  = (journal_entries (db w) ++ [row])%list
  /\ (exists v r,
         filter isWrite tr
         = [Ev (InsertJournal row) None; Ev (UpdatePoints userId v) r])
  /\ (forall e,
         In e (failures tr) ->
         toasts tr
         = [{| title := "Error";
               description := if isEmpty (message e)
                              then "Failed to save journal entry"
                              else message e;
               destructive := true |}]).
Proof.
  intros Hblank Hout row tr. subst row tr.
  destruct w as [d os c a]. simpl in Hout. subst os.
  unfold MentalHealthCard.handleJournalSubmit. rewrite Hblank.
  run_cases;
    (split; [reflexivity|];
     split; [eexists; eexists; reflexivity|];
     intros e' Hin;
     cbv beta iota zeta delta [failures omap list_omap failureOf fn_error In] in Hin;
     repeat match goal with
            | H : _ \/ _ |- _ => destruct H
            | H : False |- _ => destruct H
            end; subst; reflexivity).
Qed.

Lemma handleSubmit_rejects_target_above_max_witness :
  exists t,
    run (AddExamModal.handleSubmit "u1" overTargetForm) racingWorld
    = (tt, racingWorld, [Ev (View preventDefault) tt; Ev (View (toast t)) tt])
    /\ title t = "Error" /\ destructive t = true
    /\ In (description t)
          ["Please fill in all fields";
           "Target marks cannot be higher than maximum marks"]
    /\ filter isRemote (trace (AddExamModal.handleSubmit "u1" overTargetForm) racingWorld) = [].
Proof.
  apply (handleSubmit_rejects_target_above_max "u1" overTargetForm racingWorld).
  vm_compute. reflexivity.
Defined.

Lemma journal_entry_survives_witness :
  journal_entries
    (finalDb (MentalHealthCard.handleJournalSubmit "u1" "I feel lonely")
             refusedUpdateWorld)
  = [{| j_user_id := "u1"; j_content := "I feel lonely";
        j_mood_score := Some 5; j_mood_name := "Lonely" |}].
Proof.
  exact (proj1 (journal_entry_survives "u1" "I feel lonely" refusedUpdateWorld
                  [succeeds; fails {| message := "permission denied" |}]
                  eq_refl eq_refl)).
Defined.

(** In that run the user sees the error and the balance is unchanged,
    while the entry is in the table. *)
Example refused_update_run :
  toasts (trace (MentalHealthCard.handleJournalSubmit "u1" "I feel lonely")
                refusedUpdateWorld)
  = [{| title := "Error"; description := "permission denied"; destructive := true |}]
  /\ profiles (finalDb (MentalHealthCard.handleJournalSubmit "u1" "I feel lonely")
                       refusedUpdateWorld) !! "u1" = Some (Some 10).
Proof. split; vm_compute; reflexivity. Qed.

(** ** The chat responder *)

Import ChatAssistant.

(** The table the [catch] block spells out: a canned message for each of
    the five moods, the default for anything else. *)
Example fallbackMessage_table :
  map (fun m => fallbackMessage (str m))
      ["Calm"; "Motivated"; "Happy"; "Stressed"; "Lonely"]
  = map snd fallbackResponses
  /\ fallbackMessage (str "Angry") = defaultFallback
  /\ fallbackMessage undefined = defaultFallback.
Proof. repeat split. Qed.

(** No scope of the [catch] block binds [mood]. *)
Lemma catchBlock_rejects (openAIApiKey : option string) (error : JsError) :
  catchBlock (handlerScope openAIApiKey) error
  = rejected {| message := "mood is not defined" |}.
Proof. reflexivity. Qed.

(** C6 on the code: whenever the [try] block throws, the [catch] block
    throws in turn, a [ReferenceError] for [mood], and the handler returns
    no fallback message; so it is for the request of a stressed user when
    no API key is configured. *)
Theorem handler_failure_rejects :
  (forall openAIApiKey fetch req error,
      String.eqb (method req) "OPTIONS" = false ->
      tryBlock (handlerScope openAIApiKey) openAIApiKey fetch req = inl error ->
      handler openAIApiKey fetch req
      = rejected {| message := "mood is not defined" |})
  /\ (forall fetch,
         handler None fetch stressedRequest
         = rejected {| message := "mood is not defined" |})
  /\ (forall fetch,
         handler None fetch stressedRequest
         <> fulfilled (jsonResponse (fallbackMessage (str "Stressed")))).
Proof.
  split; [|split].
  - intros key fetch req error Hmethod Htry. unfold handler.
    rewrite Hmethod, Htry. apply catchBlock_rejects.
  - intros fetch. reflexivity.
  - intros fetch H. discriminate H.
Qed.

(** * Further properties of the code *)

(** ** Substring matching of the classifier *)

Lemma toLowerCase_append (s u : string) :
  toLowerCase (String.append s u) = String.append (toLowerCase s) (toLowerCase u).
Proof.
  induction s as [|c s IH]; simpl; [reflexivity | rewrite IH; reflexivity].
Qed.

Lemma prefix_append (k s u : string) :
  String.prefix k s = true -> String.prefix k (String.append s u) = true.
Proof.
  revert k. induction s as [|c s IH]; intros k H.
  - destruct k; [destruct u; reflexivity | discriminate H].
  - destruct k as [|a k]; [reflexivity|].
    simpl in *. destruct (ascii_dec a c); [apply IH; exact H | discriminate H].
Qed.

Lemma prefix_refl (k : string) : String.prefix k k = true.
Proof.
  induction k as [|a k IH]; [reflexivity|].
  simpl. destruct (ascii_dec a a); [exact IH | congruence].
Qed.

Lemma includes_append_r (s u k : string) :
  includes s k = true -> includes (String.append s u) k = true.
Proof.
  induction s as [|c s IH]; intros H.
  - simpl in H. rewrite orb_false_r in H.
    destruct k; [destruct u; reflexivity | discriminate H].
  - cbn [includes] in H. apply orb_true_iff in H.
    change (String.append (String c s) u) with (String c (String.append s u)).
    cbn [includes]. apply orb_true_iff. destruct H as [H | H].
    + left. apply (prefix_append k (String c s) u H).
    + right. apply IH. exact H.
Qed.

Lemma includes_append_l (p s k : string) :
  includes s k = true -> includes (String.append p s) k = true.
Proof.
  intros H. induction p as [|c p IH]; [exact H|].
  change (String.append (String c p) s) with (String c (String.append p s)).
  cbn [includes]. rewrite IH. apply orb_true_r.
Qed.

Lemma includes_self (k : string) : includes k k = true.
Proof.
  destruct k; cbn [includes]; rewrite prefix_refl; reflexivity.
Qed.

Lemma matchCount_pos (lowerText : string) (kws : list string) :
  0 < Scenarios.matchCount lowerText kws
  <-> exists k, In k kws /\ includes lowerText k = true.
Proof.
  rewrite <- keywordScore_matchCount. apply keywordScore_pos.
Qed.

Lemma matchCount_mono (t t' : string) (kws : list string) :
  (forall k, includes t k = true -> includes t' k = true) ->
  Scenarios.matchCount t kws <= Scenarios.matchCount t' kws.
Proof.
  intros Hinc. rewrite <- !keywordScore_matchCount.
  induction kws as [|k kws IH].
  - unfold keywordScore. simpl. lia.
  - rewrite !keywordScore_cons.
    destruct (includes t k) eqn:E.
    + rewrite (Hinc k E). lia.
    + destruct (includes t' k); lia.
Qed.

(** The returned mood has at least as many matches as any mood that has
    one. *)
Lemma analyzeMood_beats (text m : string) (kws : list string) :
  In (m, kws) moodKeywords ->
  0 < Scenarios.matchCount (toLowerCase text) kws ->
  exists kws',
    In (mood (analyzeMood text), kws') moodKeywords
    /\ Scenarios.matchCount (toLowerCase text) kws
       <= Scenarios.matchCount (toLowerCase text) kws'.
Proof.
  intros Hin Hpos. rewrite analyzeMood_unfold. cbn [mood].
  rewrite <- keywordScore_matchCount in Hpos.
  destruct (visit_fold_first_max (toLowerCase text) moodKeywords 0 "Calm")
    as [[_ Hall] | (before & kws0 & after & Hsplit & Hfst & _ & Hb & Ha)].
  - rewrite List.Forall_forall in Hall. specialize (Hall _ Hin). simpl in Hall. lia.
  - exists kws0. split.
    + rewrite Hsplit at 2. apply in_or_app. right. left. reflexivity.
    + rewrite <- !keywordScore_matchCount, <- Hfst.
      rewrite Hsplit in Hin. apply in_app_or in Hin.
      rewrite List.Forall_forall in Hb, Ha.
      destruct Hin as [Hin | [Heq | Hin]].
      * specialize (Hb _ Hin). cbn [snd] in Hb. lia.
      * inversion Heq; subst. lia.
      * specialize (Ha _ Hin). cbn [snd] in Ha. lia.
Qed.

(** X1: a keyword counts wherever it occurs in the text, also inside a
    longer word and in any letter case: the count of its mood is then
    positive, and the classifier returns a mood with at least that many
    matches instead of its default. *)
Theorem keyword_counts_inside_words
    (before word after m : string) (kws : list string) :
  In (m, kws) moodKeywords ->
  In (toLowerCase word) kws ->
  let text := String.append before (String.append word after) in
  0 < Scenarios.matchCount (toLowerCase text) kws
  /\ exists kws',
       In (mood (analyzeMood text), kws') moodKeywords
       /\ Scenarios.matchCount (toLowerCase text) kws
          <= Scenarios.matchCount (toLowerCase text) kws'.
Proof.
  intros Hm Hk text.
  assert (Hpos : 0 < Scenarios.matchCount (toLowerCase text) kws).
  { apply matchCount_pos. exists (toLowerCase word). split; [exact Hk|].
    unfold text. rewrite !toLowerCase_append.
    apply includes_append_l, includes_append_r, includes_self. }
  split; [exact Hpos|]. apply (analyzeMood_beats text m kws Hm Hpos).
Qed.

Lemma keyword_counts_inside_words_witness :
  0 < Scenarios.matchCount
        (toLowerCase (String.append "Back in the " (String.append "SAD" "dle again")))
        ["lonely"; "alone"; "isolated"; "sad"; "depressed"; "empty";
         "disconnected"; "missing"; "solitary"; "withdrawn"].
Proof.
  refine (proj1 (keyword_counts_inside_words "Back in the " "SAD" "dle again" "Lonely" _ _ _)).
  - simpl. tauto.
  - simpl. tauto.
Defined.

(** X2: text added before or after a journal entry never lowers the
    keyword-match count of any mood. *)
Theorem matchCount_grows_with_text (text more : string) (kws : list string) :
  Scenarios.matchCount (toLowerCase text) kws
  <= Scenarios.matchCount (toLowerCase (String.append text more)) kws
  /\ Scenarios.matchCount (toLowerCase text) kws
     <= Scenarios.matchCount (toLowerCase (String.append more text)) kws.
Proof.
  split; apply matchCount_mono; intros k H; rewrite toLowerCase_append.
  - apply includes_append_r. exact H.
  - apply includes_append_l. exact H.
Qed.

(** X3: whatever the text, the classifier returns one of the five moods
    with a score between 1 and 5, never [undefined], so that the row built
    from its result passes the checks of [journal_entries]. *)
Theorem analyzeMood_row_accepted (userId text : string) :
  exists n,
    score (analyzeMood text) = Some n /\ 1 <= n <= 5
    /\ In (mood (analyzeMood text))
          ["Calm"; "Motivated"; "Happy"; "Stressed"; "Lonely"]
    /\ Store.journalChecks
         {| Effects.j_user_id := userId; Effects.j_content := text;
            Effects.j_mood_score := score (analyzeMood text);
            Effects.j_mood_name := mood (analyzeMood text) |} = true.
Proof.
  pose proof (analyzeMood_valid text) as H.
  destruct (analyzeMood text) as [m sc]. cbn [mood score] in *.
  simpl in H.
  destruct H as [H | [H | [H | [H | [H | []]]]]]; inversion H; subst;
    eexists; (split; [reflexivity|]); (split; [lia|]); (split; [simpl; tauto | reflexivity]).
Qed.

(** ** The mood ring *)

(** X4: every mood the classifier returns has its own colour and emoji on
    the ring: the grey colour and the neutral face of the fallback are
    never shown for a classified entry. *)
Theorem classified_mood_has_ring (text : string) :
  In (mood (analyzeMood text),
      MoodRing.backgroundColor (mood (analyzeMood text)),
      MoodRing.emoji (mood (analyzeMood text)))
     [ ("Calm", MoodRing.css "#0077FF", "😌");
       ("Motivated", MoodRing.css "#00C851", "💪");
       ("Happy", MoodRing.css "#FFDD00", "😊");
       ("Stressed", MoodRing.css "#FF3D00", "😰");
       ("Lonely", MoodRing.css "#9B59B6", "😔") ].
Proof.
  pose proof (analyzeMood_valid text) as H.
  destruct (analyzeMood text) as [m sc]. cbn [mood score] in *.
  simpl in H.
  destruct H as [H | [H | [H | [H | [H | []]]]]]; inversion H; subst.
  - left. reflexivity.
  - right. left. reflexivity.
  - right. right. left. reflexivity.
  - right. right. right. left. reflexivity.
  - right. right. right. right. left. reflexivity.
Qed.

(** ** Parsing the marks *)

Import MoreScenarios.

Lemma digit_cases (c : ascii) :
  ((48 <=? N_of_ascii c)%N && (N_of_ascii c <=? 57)%N) = true ->
  In c ["0"; "1"; "2"; "3"; "4"; "5"; "6"; "7"; "8"; "9"]%char.
Proof.
  destruct c as [[] [] [] [] [] [] [] []]; intros H;
    first [discriminate H | simpl; tauto].
Qed.

Ltac each_digit c H :=
  apply digit_cases in H; simpl in H;
  repeat (destruct H as [<- | H]; [|]); [..|destruct H].

Lemma digit_skipWhiteSpace (c : ascii) (rest : string) :
  ((48 <=? N_of_ascii c)%N && (N_of_ascii c <=? 57)%N) = true ->
  skipWhiteSpace (String c rest) = None.
Proof.
  intros H. each_digit c H; destruct rest as [|c2 [|c3 rest]]; reflexivity.
Qed.

Lemma digit_trimStart (c : ascii) (rest : string) :
  ((48 <=? N_of_ascii c)%N && (N_of_ascii c <=? 57)%N) = true ->
  trimStart (String c rest) = String c rest.
Proof.
  intros H. unfold trimStart. cbn [String.length trimStartWithin].
  rewrite (digit_skipWhiteSpace c rest H). reflexivity.
Qed.

Lemma digit_stripSign (c : ascii) (rest : string) :
  ((48 <=? N_of_ascii c)%N && (N_of_ascii c <=? 57)%N) = true ->
  stripSign (String c rest) = (false, String c rest).
Proof. intros H. each_digit c H; reflexivity. Qed.

Lemma readDigits_stops_at_point (ds frac : string) (acc : option Z) :
  allDigits ds = true ->
  readDigits 10 acc (String.append ds (String "." frac)) = readDigits 10 acc ds.
Proof.
  revert acc. induction ds as [|c ds IH]; intros acc H.
  - reflexivity.
  - cbn [allDigits] in H. apply andb_true_iff in H. destruct H as [Hc Hds].
    change (String.append (String c ds) (String "." frac))
      with (String c (String.append ds (String "." frac))).
    cbn [readDigits]. destruct (digitValue 10 c); [apply IH; exact Hds | reflexivity].
Qed.

Lemma digits_stripHexPrefix (c : ascii) (ds tail : string) :
  allDigits (String c ds) = true ->
  stripHexPrefix (String c (String.append ds (String "." tail)))
  = (10, String c (String.append ds (String "." tail)))
  /\ stripHexPrefix (String c ds) = (10, String c ds).
Proof.
  intros H. cbn [allDigits] in H. apply andb_true_iff in H. destruct H as [Hc Hds].
  destruct ds as [|d ds].
  - each_digit c Hc; split; reflexivity.
  - cbn [allDigits] in Hds. apply andb_true_iff in Hds. destruct Hds as [Hd _].
    each_digit c Hc; try (split; reflexivity).
    each_digit d Hd; split; reflexivity.
Qed.

Lemma parseInt_drops_fraction (ds frac : string) :
  ds <> "" ->
  allDigits ds = true ->
  parseInt (String.append ds (String "." frac)) = parseInt ds.
Proof.
  intros Hne Hds. destruct ds as [|c ds]; [congruence|].
  pose proof Hds as Hc. cbn [allDigits] in Hc.
  apply andb_true_iff in Hc. destruct Hc as [Hc _].
  destruct (digits_stripHexPrefix c ds frac Hds) as [Hhex1 Hhex2].
  unfold parseInt.
  change (String.append (String c ds) (String "." frac))
    with (String c (String.append ds (String "." frac))).
  rewrite !digit_trimStart, !digit_stripSign by exact Hc.
  rewrite Hhex1, Hhex2.
  change (String c (String.append ds (String "." frac)))
    with (String.append (String c ds) (String "." frac)).
  rewrite readDigits_stops_at_point by exact Hds. reflexivity.
Qed.

(** X5: marks typed with a fraction are handled as the digits before the
    decimal point: the form does with them exactly what it does with the
    truncated marks, in the comparison of target and maximum as in the row
    it inserts. *)
Theorem handleSubmit_drops_fractions
    (userId subject maxDigits maxFraction targetDigits targetFraction : string)
    (date : option string) :
  maxDigits <> "" -> allDigits maxDigits = true ->
  targetDigits <> "" -> allDigits targetDigits = true ->
  AddExamModal.handleSubmit userId
    {| AddExamModal.subject := subject; AddExamModal.date := date;
       AddExamModal.maxMarks := String.append maxDigits (String "." maxFraction);
       AddExamModal.targetMarks :=
         String.append targetDigits (String "." targetFraction) |}
  = AddExamModal.handleSubmit userId
      {| AddExamModal.subject := subject; AddExamModal.date := date;
         AddExamModal.maxMarks := maxDigits;
         AddExamModal.targetMarks := targetDigits |}.
Proof.
  intros Hm Hmd Ht Htd. unfold AddExamModal.handleSubmit.
  cbn [AddExamModal.subject AddExamModal.date AddExamModal.maxMarks
       AddExamModal.targetMarks].
  rewrite !parseInt_drops_fraction by assumption.
  destruct maxDigits; [congruence|]. destruct targetDigits; [congruence|].
  reflexivity.
Qed.

Lemma handleSubmit_drops_fractions_witness :
  AddExamModal.handleSubmit "u1"
    {| AddExamModal.subject := "Physics";
       AddExamModal.date := Some "2025-10-01T00:00:00.000Z";
       AddExamModal.maxMarks := String.append "100" (String "." "0");
       AddExamModal.targetMarks := String.append "80" (String "." "95") |}
  = AddExamModal.handleSubmit "u1" validForm.
Proof.
  apply (handleSubmit_drops_fractions "u1" "Physics" "100" "0" "80" "95");
    first [discriminate | reflexivity].
Defined.

(** ** The cap of the progress *)

Lemma SFcompare_antisym (a b : spec_float) :
  SFcompare a b = option_map CompOpp (SFcompare b a).
Proof.
  destruct a as [sa | sa | | sa ma ea], b as [sb | sb | | sb mb eb];
    try destruct sa; try destruct sb; try reflexivity;
    cbn [SFcompare option_map]; f_equal;
    rewrite (Z.compare_antisym ea eb);
    destruct (ea ?= eb)%Z; cbn [CompOpp]; try reflexivity;
    change (Pos.compare_cont Eq mb ma) with (Pos.compare mb ma);
    change (Pos.compare_cont Eq ma mb) with (Pos.compare ma mb);
    rewrite (Pos.compare_antisym ma mb); destruct (ma ?= mb)%positive; reflexivity.
Qed.

Lemma is_nan_false (x : float) :
  PrimFloat.is_nan x = false -> SFcompare (Prim2SF x) (Prim2SF x) = Some Eq.
Proof.
  unfold PrimFloat.is_nan. rewrite FloatAxioms.eqb_spec. unfold SFeqb.
  destruct (SFcompare (Prim2SF x) (Prim2SF x)) as [[]|]; simpl; congruence.
Qed.

Lemma SFcompare_defined (a b : spec_float) :
  SFcompare a a = Some Eq -> SFcompare b b = Some Eq ->
  exists c, SFcompare a b = Some c.
Proof.
  destruct a as [sa | sa | | sa ma ea], b as [sb | sb | | sb mb eb];
    cbn [SFcompare]; intros Ha Hb; try discriminate; eexists; reflexivity.
Qed.

(** Numbers that are not [NaN] are comparable. *)
Lemma not_lt_le (a b : float) :
  PrimFloat.is_nan a = false -> PrimFloat.is_nan b = false ->
  PrimFloat.ltb b a = false -> PrimFloat.leb a b = true.
Proof.
  intros Ha Hb. apply is_nan_false in Ha. apply is_nan_false in Hb.
  rewrite FloatAxioms.ltb_spec, FloatAxioms.leb_spec. unfold SFltb, SFleb.
  destruct (SFcompare_defined _ _ Hb Ha) as [c Hc].
  rewrite (SFcompare_antisym (Prim2SF a) (Prim2SF b)), Hc.
  destruct c; simpl; congruence.
Qed.

(** X6: the progress of an exam with marks is [NaN] exactly when
    [obtained / target * 100] is, and otherwise it is that number or 100
    and never above 100. *)
Theorem getProgressPercentage_capped (obtained target : number) :
  let x := PrimFloat.mul (PrimFloat.div obtained target) 100%float in
  let p := ExamTracker.getProgressPercentage (Some obtained) target in
  if PrimFloat.is_nan x then PrimFloat.is_nan p = true
  else PrimFloat.leb p 100%float = true /\ (p = x \/ p = 100%float).
Proof.
  intros x p. subst p. unfold ExamTracker.getProgressPercentage. fold x.
  unfold Math_min. destruct (PrimFloat.is_nan x) eqn:Hnan.
  - reflexivity.
  - cbn [orb]. change (PrimFloat.is_nan 100%float) with false. cbv iota.
    destruct (PrimFloat.ltb 100%float x) eqn:Hlt.
    + split; [reflexivity | right; reflexivity].
    + change (isNegZero 100%float) with false. cbn [andb].
      split; [|left; reflexivity].
      apply not_lt_le; [exact Hnan | reflexivity | exact Hlt].
Qed.

(** X7: the counter of completed exams is the number of rows that show
    their progress against the target; every other row shows the target
    against the maximum. *)
Theorem completedExams_rows (exams : list ExamTracker.Exam) :
  List.length (ExamList.completedExams exams)
  = List.length
      (List.filter
         (fun row => String.eqb (ExamTracker.caption row) "Progress vs Target")
         (map ExamTracker.renderProgress exams))
  /\ List.Forall
       (fun row => ExamTracker.caption row = "Progress vs Target"
                   \/ ExamTracker.caption row = "Target Progress")
       (map ExamTracker.renderProgress exams).
Proof.
  unfold ExamList.completedExams. split.
  - induction exams as [|exam exams IH]; [reflexivity|].
    cbn [map List.filter]. unfold ExamTracker.renderProgress at 1.
    destruct (ExamTracker.obtained_marks exam); cbn; rewrite IH; reflexivity.
  - induction exams as [|exam exams IH]; constructor; [|exact IH].
    unfold ExamTracker.renderProgress.
    destruct (ExamTracker.obtained_marks exam); [left | right]; reflexivity.
Qed.

(** ** The journal handler, path by path *)

Lemma newPoints_row (row : option Z) (delta : Z) :
  newPoints (Some row) delta = balanceOf (Some row) + delta.
Proof. apply newPoints_balance. Qed.

(** Unfolding a run under hypotheses on what the world answers. *)
Ltac run_under tac :=
  repeat (run_handler;
          first [ rewrite journalChecks_analyzeMood
                | progress cbn [profiles journal_entries exams insertJournal insertExam]
                | progress tac ]).

(** X8: a journal text made of white space only does nothing at all, and
    any other text starts a run: the handler is silent exactly on blank
    texts. *)
Theorem handleJournalSubmit_silent_iff_blank (userId journalText : string) (w : World) :
  trace (MentalHealthCard.handleJournalSubmit userId journalText) w = []
  <-> isBlank journalText = true.
Proof.
  destruct w as [d os c a]. unfold MentalHealthCard.handleJournalSubmit.
  destruct (isBlank journalText).
  - split; reflexivity.
  - split; [|discriminate]. run_cases; discriminate.
Qed.

(** X9: when the insert of the journal entry is refused, the store is left
    as it was, no points are read or written, the chat is not called, and
    the user sees the error. *)
Theorem handleJournalSubmit_insert_refused
    (userId journalText : string) (w : World) (e : JsError) (rest : list Outcome) :
  isBlank journalText = false ->
  outcomes w = fails e :: rest ->
  let tr := trace (MentalHealthCard.handleJournalSubmit userId journalText) w in
  finalDb (MentalHealthCard.handleJournalSubmit userId journalText) w = db w
  /\ filter isRemote tr
     = [Ev (InsertJournal (journalRow userId journalText)) (Some e)]
  /\ toasts tr = [errorToast e "Failed to save journal entry"].
Proof.
  intros Hblank Hout tr. subst tr.
  destruct w as [d os c a]. simpl in Hout. subst os.
  unfold MentalHealthCard.handleJournalSubmit. rewrite Hblank.
  run_handler. repeat split.
Qed.

Lemma handleJournalSubmit_insert_refused_witness :
  finalDb (MentalHealthCard.handleJournalSubmit "u1" "so anxious today")
          refusedFirstWorld
  = db refusedFirstWorld.
Proof.
  exact (proj1 (handleJournalSubmit_insert_refused "u1" "so anxious today"
                  refusedFirstWorld {| message := "network down" |} []
                  eq_refl eq_refl)).
Defined.



(** X11: whatever the store and the chat answer, a run on a non-blank text
    begins by raising the loading flag and ends by lowering it. *)
Theorem handleJournalSubmit_loading_bracket
    (userId journalText : string) (w : World) :
  isBlank journalText = false ->
  let effects := viewEffects (trace (MentalHealthCard.handleJournalSubmit userId journalText) w) in
  head effects = Some (setIsLoading true)
  /\ last effects = Some (setIsLoading false)
  /\ List.length (List.filter (fun v => match v with setIsLoading _ => true | _ => false end)
                              effects) = 2%nat.
Proof.
  intros Hblank effects. subst effects.
  destruct w as [d os c a]. unfold MentalHealthCard.handleJournalSubmit.
  rewrite Hblank. run_cases; repeat split.
Qed.

Lemma handleJournalSubmit_loading_bracket_witness :
  last (viewEffects (trace (MentalHealthCard.handleJournalSubmit "u1" "so anxious today")
                           refusedSecondWorld))
  = Some (setIsLoading false).
Proof.
  exact (proj1 (proj2 (handleJournalSubmit_loading_bracket "u1" "so anxious today"
                         refusedSecondWorld eq_refl))).
Defined.

(** ** The quick actions *)

(** X12: the exercise handler does not look at the answer of the points
    update: when the update is refused the store is left as it was, and the
    user is still told that 3 points were earned. *)
Theorem handleQuickAction_refused_update_unnoticed
    (userId action : string) (w : World) (o : Outcome) (e : JsError)
    (rest : list Outcome) :
  outcomes w = o :: fails e :: rest ->
  let p := MentalHealthCard.handleQuickAction userId action in
  finalDb p w = db w
  /\ failures (trace p w) = [e]
  /\ toasts (trace p w)
     = [{| title := "Great job!";
           description := "+3 wellness points for practicing self-care!";
           destructive := false |}].
Proof.
  intros Hout p. subst p.
  destruct w as [d os c a]. simpl in Hout. subst os.
  unfold MentalHealthCard.handleQuickAction.
  destruct o; run_handler; repeat split.
Qed.

Lemma handleQuickAction_refused_update_unnoticed_witness :
  finalDb (MentalHealthCard.handleQuickAction "u1" "breathing") refusedSecondWorld
  = db refusedSecondWorld.
Proof.
  exact (proj1 (handleQuickAction_refused_update_unnoticed "u1" "breathing"
                  refusedSecondWorld succeeds {| message := "permission denied" |} []
                  eq_refl)).
Defined.

(** X13: the answer of the read is not checked either: when the read of
    the balance fails and the update goes through, the balance of the user
    is overwritten with 3, whatever it was. *)
Theorem handleQuickAction_failed_read_resets_balance
    (userId action : string) (w : World) (e : JsError) (row : option Z) :
  outcomes w = [fails e] ->
  profiles (db w) !! userId = Some row ->
  profiles (finalDb (MentalHealthCard.handleQuickAction userId action) w) !! userId
  = Some (Some 3).
Proof.
  intros Hout Hrow.
  destruct w as [d os c a]. cbn [outcomes db] in *. subst os.
  unfold MentalHealthCard.handleQuickAction. run_handler.
  change (int4 (newPoints None 3)) with true. cbv iota.
  cbn [profiles updatePoints]. rewrite Hrow. apply lookup_insert_eq.
Qed.

Lemma handleQuickAction_failed_read_resets_balance_witness :
  profiles (finalDb (MentalHealthCard.handleQuickAction "u1" "breathing")
                    refusedFirstWorld) !! "u1"
  = Some (Some 3).
Proof.
  apply (handleQuickAction_failed_read_resets_balance "u1" "breathing"
           refusedFirstWorld {| message := "network down" |} (Some 40)).
  - reflexivity.
  - vm_compute. reflexivity.
Defined.



(** ** What the handlers never touch *)

Lemma onlyBalanceOf_refl (userId : string) (d : Db) : onlyBalanceOf userId d d.
Proof. intros u. split; [reflexivity | tauto]. Qed.

Lemma onlyBalanceOf_updatePoints (userId : string) (v : Z) (d0 d : Db) :
  profiles d = profiles d0 ->
  onlyBalanceOf userId d0 (updatePoints userId v d).
Proof.
  intros Heq u. unfold updatePoints. cbn [profiles]. rewrite Heq.
  destruct (profiles d0 !! userId) as [row|] eqn:Hrow.
  - split.
    + intros Hne. apply lookup_insert_ne. congruence.
    + destruct (decide (u = userId)) as [-> | Hne].
      * rewrite lookup_insert_eq, Hrow. split; eauto.
      * rewrite lookup_insert_ne by congruence. tauto.
  - split; [reflexivity | tauto].
Qed.

Ltac solve_untouched :=
  cbn [profiles journal_entries exams updatePoints insertJournal insertExam];
  first [ reflexivity
        | apply onlyBalanceOf_refl
        | apply onlyBalanceOf_updatePoints; reflexivity
        | (intros u; cbn [profiles insertJournal insertExam];
           split; [reflexivity | tauto]) ].

(** X15: whatever the store and the chat answer, the three rewarded
    handlers leave the profiles of the other users as they are and neither
    create nor delete a profile row; the journal handler and the exercises
    leave [exams] alone, and the exercises and the exam form leave
    [journal_entries] alone. *)
Theorem handlers_touch_only_own_balance (userId : string) (w : World) :
  (forall journalText,
      let p := MentalHealthCard.handleJournalSubmit userId journalText in
      onlyBalanceOf userId (db w) (finalDb p w)
      /\ exams (finalDb p w) = exams (db w))
  /\ (forall action,
         let p := MentalHealthCard.handleQuickAction userId action in
         onlyBalanceOf userId (db w) (finalDb p w)
         /\ journal_entries (finalDb p w) = journal_entries (db w)
         /\ exams (finalDb p w) = exams (db w))
  /\ (forall formData,
         let p := AddExamModal.handleSubmit userId formData in
         onlyBalanceOf userId (db w) (finalDb p w)
         /\ journal_entries (finalDb p w) = journal_entries (db w)).
Proof.
  destruct w as [d os c a]. split; [|split].
  - intros journalText p. subst p. unfold MentalHealthCard.handleJournalSubmit.
    destruct (isBlank journalText); run_cases; split; solve_untouched.
  - intros action p. subst p. unfold MentalHealthCard.handleQuickAction.
    run_cases; (split; [|split]); solve_untouched.
  - intros formData p. subst p. unfold AddExamModal.handleSubmit.
    destruct (AddExamModal.date formData) as [iso|];
      [destruct (isEmpty (AddExamModal.subject formData)
                 || isEmpty (AddExamModal.maxMarks formData)
                 || isEmpty (AddExamModal.targetMarks formData));
       [|destruct (gt (parseInt (AddExamModal.targetMarks formData))
                      (parseInt (AddExamModal.maxMarks formData)))]|];
      run_cases; split; solve_untouched.
Qed.

(** ** The exam form, path by path *)

(** X16: a form with a missing subject, date, maximum or target is
    rejected with the request to fill in all fields, before anything is
    parsed or sent. *)
Theorem handleSubmit_missing_field
    (userId : string) (formData : AddExamModal.FormData) (w : World) :
  AddExamModal.date formData = None
  \/ isEmpty (AddExamModal.subject formData) = true
  \/ isEmpty (AddExamModal.maxMarks formData) = true
  \/ isEmpty (AddExamModal.targetMarks formData) = true ->
  run (AddExamModal.handleSubmit userId formData) w
  = (tt, w,
     [ Ev (View preventDefault) tt;
       Ev (View (toast {| title := "Error";
                          description := "Please fill in all fields";
                          destructive := true |})) tt ]).
Proof.
  intros H. unfold AddExamModal.handleSubmit.
  destruct (AddExamModal.date formData) as [iso|]; [|reflexivity].
  destruct H as [H | [H | [H | H]]]; [discriminate H | | |]; rewrite H;
    rewrite ?orb_true_r; reflexivity.
Qed.

Lemma handleSubmit_missing_field_witness :
  run (AddExamModal.handleSubmit "u1" noDateForm) quietWorld
  = (tt, quietWorld,
     [ Ev (View preventDefault) tt;
       Ev (View (toast {| title := "Error";
                          description := "Please fill in all fields";
                          destructive := true |})) tt ]).
Proof.
  apply handleSubmit_missing_field. left. reflexivity.
Defined.

(** X17: in a world without faults, a filled form whose target does not
    exceed its maximum and whose marks the table accepts adds one exam row
    with the parsed marks and the date part of the picked date, adds 2 to
    the balance of the user, notifies, resets the form and tells the
    parent. *)
Theorem handleSubmit_success
    (userId iso : string) (formData : AddExamModal.FormData) (w : World)
    (row : option Z) :
  AddExamModal.date formData = Some iso ->
  isEmpty (AddExamModal.subject formData) = false ->
  isEmpty (AddExamModal.maxMarks formData) = false ->
  isEmpty (AddExamModal.targetMarks formData) = false ->
  gt (parseInt (AddExamModal.targetMarks formData))
     (parseInt (AddExamModal.maxMarks formData)) = false ->
  examChecks (examRow userId iso formData) = true ->
  outcomes w = [] ->
  profiles (db w) !! userId = Some row ->
  int4 (balanceOf (Some row) + 2) = true ->
  let p := AddExamModal.handleSubmit userId formData in
  exams (finalDb p w) = (exams (db w) ++ [examRow userId iso formData])%list
  /\ profiles (finalDb p w)
     = <[userId := Some (balanceOf (Some row) + 2)]> (profiles (db w))
  /\ journal_entries (finalDb p w) = journal_entries (db w)
  /\ viewEffects (trace p w)
     = [ preventDefault;
         setLoading true;
         toast {| title := "Exam added successfully!";
                  description := "+2 wellness points for staying organized!";
                  destructive := false |};
         resetFormData;
         onExamAdded;
         setLoading false ].
Proof.
  intros Hdate Hs Hm Ht Hgt Hchecks Hout Hrow Hint p. subst p.
  destruct w as [d os c a]. cbn [outcomes db] in *. subst os.
  unfold examRow in Hchecks |- *.
  unfold AddExamModal.handleSubmit. rewrite Hdate, Hs, Hm, Ht, Hgt. cbn [orb].
  run_under ltac:(first [ rewrite Hchecks | rewrite Hrow | rewrite newPoints_row
                        | rewrite Hint ]).
  cbn [journal_entries profiles exams updatePoints insertExam].
  rewrite Hrow. repeat split.
Qed.

Lemma handleSubmit_success_witness :
  exams (finalDb (AddExamModal.handleSubmit "u1" validForm) quietWorld)
  = [{| e_user_id := "u1"; e_subject := "Physics"; e_date := "2025-10-01";
        e_max_marks := 100%float; e_target_marks := 80%float |}].
Proof.
  refine (proj1 (handleSubmit_success "u1" "2025-10-01T00:00:00.000Z" validForm
                   quietWorld (Some 40) eq_refl eq_refl eq_refl eq_refl
                   eq_refl eq_refl eq_refl _ eq_refl)).
  vm_compute. reflexivity.
Defined.

(** X18: the form only compares the target with the maximum: marks that
    are zero, negative or not a number pass it, the insert is sent, the
    checks of the table refuse it, and then no exam is added, no points are
    read or written and the user sees an error. *)
Theorem handleSubmit_unchecked_marks_refused_by_store
    (userId iso : string) (formData : AddExamModal.FormData) (w : World) :
  AddExamModal.date formData = Some iso ->
  isEmpty (AddExamModal.subject formData) = false ->
  isEmpty (AddExamModal.maxMarks formData) = false ->
  isEmpty (AddExamModal.targetMarks formData) = false ->
  gt (parseInt (AddExamModal.targetMarks formData))
     (parseInt (AddExamModal.maxMarks formData)) = false ->
  examChecks (examRow userId iso formData) = false ->
  outcomes w = [] ->
  let p := AddExamModal.handleSubmit userId formData in
  finalDb p w = db w
  /\ filter isRemote (trace p w)
     = [Ev (InsertExam (examRow userId iso formData)) (Some violation)]
  /\ toasts (trace p w) = [errorToast violation "Failed to add exam"]
  /\ last (viewEffects (trace p w)) = Some (setLoading false).
Proof.
  intros Hdate Hs Hm Ht Hgt Hchecks Hout p. subst p.
  destruct w as [d os c a]. cbn [outcomes db] in *. subst os.
  unfold examRow in Hchecks |- *.
  unfold AddExamModal.handleSubmit. rewrite Hdate, Hs, Hm, Ht, Hgt. cbn [orb].
  run_under ltac:(rewrite Hchecks).
  repeat split.
Qed.

Lemma handleSubmit_unchecked_marks_refused_by_store_witness :
  toasts (trace (AddExamModal.handleSubmit "u1" zeroMaxForm) quietWorld)
  = [errorToast violation "Failed to add exam"].
Proof.
  exact (proj1 (proj2 (proj2
           (handleSubmit_unchecked_marks_refused_by_store "u1"
              "2025-10-01T00:00:00.000Z" zeroMaxForm quietWorld
              eq_refl eq_refl eq_refl eq_refl eq_refl eq_refl eq_refl)))).
Defined.

(** ** Two actions at once *)

Ltac race_steps tac :=
  repeat (cbv beta iota zeta delta
            [interleave racingSchedule run bind await view tryCatch throw done
             step nextOutcome withDb db outcomes clock assistant fst snd
             fn_error fn_data];
          first [ rewrite journalChecks_analyzeMood
                | progress cbn [profiles journal_entries exams insertJournal
                                updatePoints]
                | rewrite lookup_insert_eq
                | progress tac ]).

(** X19: for every user, balance and journal text, when an exercise is
    started after the journal handler has read the balance and before it
    writes, the 3 points of the exercise are lost: the balance ends 5 above
    where it was, while the same two actions one after the other end 8
    above. *)
Theorem racing_actions_lose_points
    (userId journalText action : string) (w : World) (row : option Z) :
  isBlank journalText = false ->
  outcomes w = [] ->
  profiles (db w) !! userId = Some row ->
  int4 (balanceOf (Some row) + 3) = true ->
  int4 (balanceOf (Some row) + 5) = true ->
  int4 (balanceOf (Some row) + 5 + 3) = true ->
  let journal := MentalHealthCard.handleJournalSubmit userId journalText in
  let exercise := MentalHealthCard.handleQuickAction userId action in
  profiles (db (interleave racingSchedule journal exercise w)) !! userId
  = Some (Some (balanceOf (Some row) + 5))
  /\ profiles (db (interleave [] journal exercise w)) !! userId
     = Some (Some (balanceOf (Some row) + 5 + 3)).
Proof.
  intros Hblank Hout Hrow H3 H5 H8 journal exercise. subst journal exercise.
  destruct w as [d os c a]. cbn [outcomes db] in *. subst os.
  unfold MentalHealthCard.handleJournalSubmit, MentalHealthCard.handleQuickAction.
  rewrite Hblank.
  assert (Hnext : forall delta,
             newPoints (Some (Some (balanceOf (Some row) + 5))) delta
             = balanceOf (Some row) + 5 + delta).
  { intros delta. rewrite newPoints_row. reflexivity. }
  split.
  - race_steps ltac:(first [ rewrite Hrow | rewrite newPoints_row
                           | rewrite H3 | rewrite H5 ]).
    destruct (a journalText (mood (analyzeMood journalText)));
      race_steps ltac:(first [ rewrite Hrow | rewrite newPoints_row
                             | rewrite H3 | rewrite H5 ]);
      reflexivity.
  - race_steps ltac:(first [ rewrite Hrow | rewrite Hnext | rewrite newPoints_row
                           | rewrite H5 | rewrite H8 ]).
    destruct (a journalText (mood (analyzeMood journalText)));
      race_steps ltac:(first [ rewrite Hrow | rewrite Hnext | rewrite newPoints_row
                             | rewrite H5 | rewrite H8 ]);
      reflexivity.
Qed.

Lemma racing_actions_lose_points_witness :
  profiles (db (interleave racingSchedule
                  (MentalHealthCard.handleJournalSubmit "u1" "so anxious today")
                  (MentalHealthCard.handleQuickAction "u1" "breathing")
                  quietWorld)) !! "u1"
  = Some (Some 45).
Proof.
  refine (proj1 (racing_actions_lose_points "u1" "so anxious today" "breathing"
                   quietWorld (Some 40) eq_refl eq_refl _ eq_refl eq_refl eq_refl)).
  vm_compute. reflexivity.
Defined.

(** ** The chat responder, when it answers *)

Import ChatAssistant.

(** The handler in closed form: every way out of the [try] block but the
    successful one ends in the rejection of the [catch] block. *)
Lemma handler_cases (openAIApiKey : option string)
    (fetch : FetchInit -> FetchResult) (req : Request) :
  handler openAIApiKey fetch req
  = if String.eqb (method req) "OPTIONS"
    then fulfilled {| body := None; headers := corsHeaders |}
    else
      match json req, openAIApiKey with
      | Some payload, Some key =>
          if isEmpty key then rejected {| message := "mood is not defined" |}
          else
            match fetch {| authorization := String.append "Bearer " key;
                           model := "gpt-4o-mini";
                           system_content := systemPrompt (ofOption (p_mood payload));
                           user_content := ofOption (p_message payload);
                           max_tokens := 200 |} with
            | httpResponse true _ (chatMessage content) => fulfilled (respond content)
            | _ => rejected {| message := "mood is not defined" |}
            end
      | _, _ => rejected {| message := "mood is not defined" |}
      end.
Proof.
  unfold handler. destruct (String.eqb (method req) "OPTIONS"); [reflexivity|].
  unfold tryBlock. destruct (json req) as [payload|]; [|reflexivity].
  destruct openAIApiKey as [key|]; [|reflexivity].
  destruct (isEmpty key); [reflexivity|].
  change (resolve "mood" (("message", ofOption (p_message payload))
                            :: ("mood", ofOption (p_mood payload))
                            :: handlerScope (Some key)))
    with (@inr JsError Value (ofOption (p_mood payload))).
  change (resolve "message" (("message", ofOption (p_message payload))
                               :: ("mood", ofOption (p_mood payload))
                               :: handlerScope (Some key)))
    with (@inr JsError Value (ofOption (p_message payload))).
  cbv iota.
  destruct (fetch _) as [e | [] status [| | content]]; reflexivity.
Qed.

(** X20: the responder produces a response in two cases only, the CORS
    preflight, answered with an empty body, and a call that the upstream
    API answered with an ok status and a JSON body in which
    [choices[0].message] can be read; the body of the response is then
    [JSON.stringify({ response: content })] for the [content] of that
    message, be it a string, [null], another value or missing; the key is
    sent as a bearer token and the mood of the request is written into the
    system prompt.  Every response carries the CORS headers. *)
Theorem handler_fulfils_only_on_success
    (openAIApiKey : option string) (fetch : FetchInit -> FetchResult)
    (req : Request) (r : Response) :
  handler openAIApiKey fetch req = fulfilled r ->
  take 2 (headers r) = corsHeaders
  /\ ((method req = "OPTIONS" /\ body r = None)
      \/ (exists key payload status content,
             openAIApiKey = Some key /\ isEmpty key = false
             /\ json req = Some payload
             /\ fetch {| authorization := String.append "Bearer " key;
                         model := "gpt-4o-mini";
                         system_content := systemPrompt (ofOption (p_mood payload));
                         user_content := ofOption (p_message payload);
                         max_tokens := 200 |}
                = httpResponse true status (chatMessage content)
             /\ body r = Some (stringifyResponse content))).
Proof.
  rewrite handler_cases.
  destruct (String.eqb (method req) "OPTIONS") eqn:Hm.
  - intros H. inversion H; subst. split; [reflexivity|].
    left. split; [apply String.eqb_eq; exact Hm | reflexivity].
  - destruct (json req) as [payload|]; [|discriminate].
    destruct openAIApiKey as [key|]; [|discriminate].
    destruct (isEmpty key) eqn:Hk; [discriminate|].
    destruct (fetch _) as [e | [] status [| | content]] eqn:Hf; try discriminate.
    intros H. inversion H; subst. split; [reflexivity|].
    right. exists key, payload, status, content. repeat split; assumption.
Qed.

Lemma handler_fulfils_only_on_success_witness :
  take 2 (headers (respond (Some jsonNull))) = corsHeaders.
Proof.
  exact (proj1 (handler_fulfils_only_on_success (Some "sk-test")
                  (fun _ => httpResponse true 200 (chatMessage (Some jsonNull)))
                  stressedRequest (respond (Some jsonNull)) eq_refl)).
Defined.

(** What the responder sends for a text, for [null] and for a missing
    [content]. *)
Example stringifyResponse_samples :
  map stringifyResponse
      [ Some (jsonString (String.append "Breathe" (String quote " slowly")));
        Some jsonNull; None ]
  = [ String.append "{" (String quote (String.append "response"
        (String quote (String.append ":" (String quote (String.append "Breathe\"
        (String quote (String.append " slowly" (String quote "}")))))))));
      String.append "{" (String quote (String.append "response"
        (String quote ":null}")));
      "{}" ].
Proof. vm_compute. reflexivity. Qed.

(** ** The latest mood *)

Import LatestMood.

Lemma journal_entries_after_insert
    (userId journalText : string) (w : World) (rest : list Outcome) :
  isBlank journalText = false ->
  outcomes w = succeeds :: rest ->
  journal_entries (finalDb (MentalHealthCard.handleJournalSubmit userId journalText) w)
  = (journal_entries (db w) ++ [journalRow userId journalText])%list.
Proof.
  intros Hblank Hout.
  destruct w as [d os c a]. simpl in Hout. subst os.
  unfold MentalHealthCard.handleJournalSubmit. rewrite Hblank.
  run_cases; reflexivity.
Qed.

Lemma selectLatestMood_snoc (userId : string) (rows : list JournalRow)
    (row : JournalRow) :
  j_user_id row = userId ->
  selectLatestMood userId (rows ++ [row]) = [j_mood_name row].
Proof.
  intros Hu. unfold selectLatestMood.
  rewrite List.filter_app. cbn [List.filter]. rewrite Hu, String.eqb_refl.
  rewrite map_app, reverse_app. reflexivity.
Qed.

(** X21: after a journal entry of a user has been saved, the next fetch of
    the latest mood, if the query is answered, sets the ring to the mood
    that was detected for that entry, whatever else the run of the
    submission met. *)
Theorem fetchLatestMood_after_submit
    (userId journalText : string) (w w' : World) (rest : list Outcome) :
  isBlank journalText = false ->
  outcomes w = succeeds :: rest ->
  db w' = finalDb (MentalHealthCard.handleJournalSubmit userId journalText) w ->
  outcomes w' = [] ->
  fetchLatestMood userId w'
  = ([setCurrentMood (mood (analyzeMood journalText))], w').
Proof.
  intros Hblank Hout Hdb Hout'.
  destruct w' as [d' os' c' a']. cbn [db outcomes] in Hdb, Hout'. subst os'.
  unfold fetchLatestMood. cbn [nextOutcome outcomes db].
  rewrite Hdb, (journal_entries_after_insert userId journalText w rest Hblank Hout).
  rewrite selectLatestMood_snoc by reflexivity.
  cbn [j_mood_name journalRow].
  pose proof (analyzeMood_valid journalText) as Hv.
  destruct (analyzeMood journalText) as [m sc]. cbn [mood score] in *.
  simpl in Hv.
  destruct Hv as [H | [H | [H | [H | [H | []]]]]]; inversion H; subst; reflexivity.
Qed.

Lemma fetchLatestMood_after_submit_witness :
  fetchLatestMood "u1" reloadedWorld = ([setCurrentMood "Lonely"], reloadedWorld).
Proof.
  exact (fetchLatestMood_after_submit "u1" "I feel lonely" refusedUpdateWorld
           reloadedWorld [succeeds; fails {| message := "permission denied" |}]
           eq_refl eq_refl eq_refl eq_refl).
Defined.

(** ** The dashboard *)

Import Dashboard.

(** X22: loading the dashboard never changes the store when the user has a
    profile row or when the read of the balance fails: a profile is only
    created after a read that was answered and found no row.  With a row,
    the header shows its balance, a [null] balance as 0, unless the read
    failed. *)
Theorem fetchWellnessPoints_keeps_existing_profile (user : User) (w : World) :
  is_Some (profiles (db w) !! u_id user)
  \/ (exists e rest, outcomes w = fails e :: rest) ->
  db (snd (fetchWellnessPoints user w)) = db w
  /\ (fst (fetchWellnessPoints user w)
      = [ setWellnessPoints (balanceOf (profiles (db w) !! u_id user));
          effect (setLoading false) ]
      \/ exists e,
           fst (fetchWellnessPoints user w)
           = [ effect (console_error "Error fetching wellness points:" e);
               effect (setLoading false) ]).
Proof.
  destruct w as [d os c a]. cbn [db outcomes].
  unfold fetchWellnessPoints, selectSingle, nextOutcome. cbn [outcomes db].
  intros [[row Hrow] | (e & rest & ->)].
  - destruct os as [|[|e] os]; cbn [db]; rewrite ?Hrow; cbn [fst snd db].
    + split; [reflexivity|]. left. destruct row as [[|n|n]|]; reflexivity.
    + split; [reflexivity|]. left. destruct row as [[|n|n]|]; reflexivity.
    + split; [reflexivity|]. right. exists e. reflexivity.
  - cbn [fst snd db code error String.eqb]. split; [reflexivity|].
    right. exists e. reflexivity.
Qed.

Lemma fetchWellnessPoints_keeps_existing_profile_witness :
  db (snd (fetchWellnessPoints knownUser quietWorld)) = db quietWorld.
Proof.
  refine (proj1 (fetchWellnessPoints_keeps_existing_profile knownUser quietWorld _)).
  left. exists (Some 40). vm_compute. reflexivity.
Defined.

(** The first load for a user without a row, without faults. *)
Lemma fetchWellnessPoints_first_load (user : User) (w : World) (name : string) :
  profiles (db w) !! u_id user = None ->
  outcomes w = [] ->
  profileName user = Some name ->
  fetchWellnessPoints user w
  = ([ effect (console_error "Error fetching wellness points:" (error noRows));
       setWellnessPoints 0;
       effect (setLoading false) ],
     withDb w (createProfile (u_id user) (db w))).
Proof.
  intros Hnone Hout Hname.
  destruct w as [d os c a]. cbn [db outcomes] in *. subst os.
  unfold fetchWellnessPoints, selectSingle, insertProfile, nextOutcome.
  cbn [outcomes db]. rewrite Hnone.
  cbn [code noRows String.eqb Ascii.eqb Bool.eqb andb]. cbn [outcomes db].
  rewrite Hname, Hnone. reflexivity.
Qed.

(** X23: for a user without a profile row, in a world without faults, the
    first load of the dashboard creates the row with 0 points, as long as
    the account has a name or an e-mail address, and shows 0; the next load
    reads that row and creates nothing. *)
Theorem fetchWellnessPoints_creates_missing_profile
    (user : User) (w : World) (name : string) :
  profiles (db w) !! u_id user = None ->
  outcomes w = [] ->
  profileName user = Some name ->
  let w1 := snd (fetchWellnessPoints user w) in
  profiles (db w1) = <[u_id user := Some 0]> (profiles (db w))
  /\ journal_entries (db w1) = journal_entries (db w)
  /\ exams (db w1) = exams (db w)
  /\ fst (fetchWellnessPoints user w)
     = [ effect (console_error "Error fetching wellness points:" (error noRows));
         setWellnessPoints 0;
         effect (setLoading false) ]
  /\ fetchWellnessPoints user w1
     = ([setWellnessPoints 0; effect (setLoading false)], w1).
Proof.
  intros Hnone Hout Hname w1. subst w1.
  rewrite (fetchWellnessPoints_first_load user w name Hnone Hout Hname).
  destruct w as [d os c a]. cbn [db outcomes] in *. subst os.
  cbn [fst snd db withDb createProfile profiles journal_entries exams outcomes].
  repeat split.
  unfold fetchWellnessPoints, selectSingle, nextOutcome.
  cbn [outcomes db profiles createProfile withDb]. rewrite lookup_insert_eq.
  reflexivity.
Qed.

Lemma fetchWellnessPoints_creates_missing_profile_witness :
  profiles (db (snd (fetchWellnessPoints newUser quietWorld)))
  = <[ "u9" := Some 0 ]> (profiles (db quietWorld)).
Proof.
  refine (proj1 (fetchWellnessPoints_creates_missing_profile newUser quietWorld
                   "u9@example.org" _ eq_refl eq_refl)).
  vm_compute. reflexivity.
Defined.

(** X24: a user without a profile row who starts an exercise is told that
    3 points were earned while nothing is stored; once the dashboard has
    created the row, the same exercise leaves a balance of 3. *)
Theorem exercise_needs_profile (user : User) (action name : string) (w : World) :
  profiles (db w) !! u_id user = None ->
  outcomes w = [] ->
  profileName user = Some name ->
  let exercise := MentalHealthCard.handleQuickAction (u_id user) action in
  finalDb exercise w = db w
  /\ toasts (trace exercise w)
     = [{| title := "Great job!";
           description := "+3 wellness points for practicing self-care!";
           destructive := false |}]
  /\ profiles (finalDb exercise (snd (fetchWellnessPoints user w))) !! u_id user
     = Some (Some 3).
Proof.
  intros Hnone Hout Hname exercise. subst exercise.
  rewrite (fetchWellnessPoints_first_load user w name Hnone Hout Hname).
  split; [|split].
  - destruct w as [d os c a]. cbn [db outcomes] in *. subst os.
    unfold MentalHealthCard.handleQuickAction. run_handler.
    rewrite Hnone. change (int4 (newPoints None 3)) with true. cbv iota.
    cbn [db]. unfold updatePoints. rewrite Hnone. destruct d; reflexivity.
  - destruct w as [d os c a]. cbn [db outcomes] in *. subst os.
    unfold MentalHealthCard.handleQuickAction. run_handler.
    rewrite Hnone. change (int4 (newPoints None 3)) with true. reflexivity.
  - destruct w as [d os c a]. cbn [db outcomes] in *. subst os.
    cbn [snd withDb db outcomes clock assistant].
    unfold MentalHealthCard.handleQuickAction. run_handler.
    cbn [profiles createProfile]. rewrite lookup_insert_eq.
    change (int4 (newPoints (Some (Some 0)) 3)) with true. cbv iota.
    cbn [db profiles updatePoints createProfile]. rewrite lookup_insert_eq.
    apply lookup_insert_eq.
Qed.

Lemma exercise_needs_profile_witness :
  finalDb (MentalHealthCard.handleQuickAction "u9" "breathing") quietWorld
  = db quietWorld.
Proof.
  refine (proj1 (exercise_needs_profile newUser "breathing" "u9@example.org"
                   quietWorld _ eq_refl eq_refl)).
  vm_compute. reflexivity.
Defined.

Lemma shown_balance (v : Z) : orElse (Some v) (Z.eqb 0) 0 = v.
Proof. destruct v; reflexivity. Qed.

(** X25: after an exercise in a world without faults, the reload of the
    balance that the handler asks of the dashboard shows the balance the
    exercise wrote, 3 above the one before. *)
Theorem exercise_then_header (user : User) (action : string) (w : World)
    (row : option Z) :
  outcomes w = [] ->
  profiles (db w) !! u_id user = Some row ->
  int4 (balanceOf (Some row) + 3) = true ->
  fst (fetchWellnessPoints user
         (snd (fst (run (MentalHealthCard.handleQuickAction (u_id user) action) w))))
  = [setWellnessPoints (balanceOf (Some row) + 3); effect (setLoading false)].
Proof.
  intros Hout Hrow Hint.
  destruct w as [d os c a]. cbn [outcomes db] in *. subst os.
  unfold MentalHealthCard.handleQuickAction.
  run_under ltac:(first [ rewrite Hrow | rewrite newPoints_row | rewrite Hint ]).
  unfold fetchWellnessPoints, selectSingle, nextOutcome.
  cbn [outcomes db profiles updatePoints]. rewrite Hrow, lookup_insert_eq.
  rewrite shown_balance. reflexivity.
Qed.

Lemma exercise_then_header_witness :
  fst (fetchWellnessPoints knownUser
         (snd (fst (run (MentalHealthCard.handleQuickAction "u1" "mindfulness")
                        quietWorld))))
  = [setWellnessPoints 43; effect (setLoading false)].
Proof.
  refine (exercise_then_header knownUser "mindfulness" quietWorld (Some 40)
            eq_refl _ eq_refl).
  vm_compute. reflexivity.
Defined.
